(** * real-estate-scraper.py: a shallow embedding and its properties

    The script fetches one search-results page, turns its listing nodes into
    records, writes them to a CSV file and posts a Telegram alert.  The code
    is embedded function by function, under the names of the source:
    [scrape_properties], [save_to_csv], [send_email], [send_telegram_alert]
    and [main].

    Conventions.
    - A Python [str] is a [string] holding its UTF-8 encoding.
    - A Python exception is a value of [exn]; only instances of [Exception]
      are modelled (what [except Exception] catches and what tenacity
      retries).
    - Code that can raise lives in [result]; code that also talks to the
      outside world (HTTP, the log, files) lives in the monad [M], which
      threads a [State] holding the chronological list of calls made.
    - Third-party libraries are interfaces: the bs4 tree is the class [Bs4],
      the network, the file system and the mail server are the oracles of
      [World].  [TreeBs4] is an executable instance of [Bs4] over rose
      trees. *)

From Stdlib Require Import String Ascii.
From stdpp Require Import base option list strings pretty gmap.

Local Open Scope string_scope.
Local Open Scope list_scope.

(** ** Python values *)

(** Instances of [Exception].  [Exc cls arg] is [cls(arg)];
    [RetryError e] is tenacity's [RetryError], whose [last_attempt] holds the
    failure [e] of the last call. *)
Inductive exn : Type :=
| Exc (cls : string) (arg : string)
| RetryError (last_attempt : exn).

Definition AttributeError (msg : string) : exn := Exc "AttributeError" msg.
Definition KeyError (key : string) : exn := Exc "KeyError" key.
Definition HTTPError (msg : string) : exn := Exc "HTTPError" msg.

Inductive result (A : Type) : Type :=
| Ok (a : A)
| Raise (e : exn).
Arguments Ok {A} a.
Arguments Raise {A} e.

Definition rbind {A B : Type} (m : result A) (k : A -> result B) : result B :=
  match m with
  | Ok a => k a
  | Raise e => Raise e
  end.

Declare Scope result_scope.
Delimit Scope result_scope with res.
Notation "'let?' x ':=' m 'in' k" := (rbind m (fun x => k))
  (at level 10, x name, m at level 100, k at level 200) : result_scope.

Definition to_option {A : Type} (r : result A) : option A :=
  match r with
  | Ok a => Some a
  | Raise _ => None
  end.

(** The values a record field holds: a [str] or [None]. *)
Inductive value : Type :=
| VStr (s : string)
| VNone.

(** [f"{v}"] *)
Definition format (v : value) : string :=
  match v with
  | VStr s => s
  | VNone => "None"
  end.

(** A [dict] with string keys, as the list of its items in insertion order. *)
Definition dict : Type := list (string * value).

Definition keys (d : dict) : list string := map fst d.

Fixpoint get (d : dict) (k : string) : option value :=
  match d with
  | [] => None
  | (k', v) :: d' => if String.eqb k' k then Some v else get d' k
  end.

(** [d[k]] *)
Definition subscript (d : dict) (k : string) : result value :=
  match get d k with
  | Some v => Ok v
  | None => Raise (KeyError k)
  end.

(** ** [str] methods *)

(** [s.startswith(p)] *)
Definition startswith (s p : string) : bool := String.prefix p s.

Definition byte_in (a : ascii) (l : list nat) : bool :=
  existsb (Nat.eqb (nat_of_ascii a)) l.

(** The code points on which [str.isspace] holds, by the length of their
    UTF-8 encoding: U+0009..U+000D, U+001C..U+0020; U+0085, U+00A0;
    U+1680, U+2000..U+200A, U+2028, U+2029, U+202F, U+205F, U+3000. *)
Definition space1 (a : ascii) : bool :=
  byte_in a [9; 10; 11; 12; 13; 28; 29; 30; 31; 32].

Definition space2 (a b : ascii) : bool :=
  Nat.eqb (nat_of_ascii a) 194 && byte_in b [133; 160].

Definition space3 (a b c : ascii) : bool :=
  match nat_of_ascii a, nat_of_ascii b with
  | 225, 154 => byte_in c [128]
  | 226, 128 =>
      byte_in c [128; 129; 130; 131; 132; 133; 134; 135; 136; 137; 138;
                 168; 169; 175]
  | 226, 129 => byte_in c [159]
  | 227, 128 => byte_in c [128]
  | _, _ => false
  end.

(** [s.lstrip()] *)
Fixpoint lstrip (s : string) : string :=
  match s with
  | String a r1 =>
      if space1 a then lstrip r1
      else
        match r1 with
        | String b r2 =>
            if space2 a b then lstrip r2
            else
              match r2 with
              | String c r3 => if space3 a b c then lstrip r3 else s
              | EmptyString => s
              end
        | EmptyString => s
        end
  | EmptyString => s
  end.

Definition isblank (s : string) : bool :=
  match lstrip s with
  | EmptyString => true
  | String _ _ => false
  end.

(** [s.rstrip()] *)
Fixpoint rstrip (s : string) : string :=
  match s with
  | String a r => if isblank s then EmptyString else String a (rstrip r)
  | EmptyString => EmptyString
  end.

(** [s.strip()] *)
Definition strip (s : string) : string := rstrip (lstrip s).

(** ** The bs4 tree interface *)

(** The value of an attribute: a string, or a list of strings for the
    attributes bs4 treats as multi-valued ([class], [rel], ...). *)
Inductive attr_value : Type :=
| AttrStr (s : string)
| AttrList (l : list string).

(** What the script asks of a parsed document.  Every operation may raise:
    the theorems below hold whatever the library does.
    - [BeautifulSoup text] is [BeautifulSoup(text, "html.parser")];
    - [find_all t name c] is [t.find_all(name, class_=c)];
    - [find t name c] is [t.find(name, class_=c)];
    - [find_attr t name a] is [t.find(name, a=True)];
    - [text t] is [t.text];
    - [getitem t a] is [t[a]].
    A [Tag] is always truthy ([Tag.__bool__] returns [True]), so the truth
    value of a [find] result is whether it is a tag rather than [None]. *)
Class Bs4 (Tag : Type) : Type := {
  BeautifulSoup : string -> result Tag;
  find_all : Tag -> string -> string -> result (list Tag);
  find : Tag -> string -> string -> result (option Tag);
  find_attr : Tag -> string -> string -> result (option Tag);
  text : Tag -> result string;
  getitem : Tag -> string -> result attr_value
}.

(** The sentinel of an absent field. *)
Definition NA : string := "N/A".

Section Listing.
Context {Tag : Type} `{Bs4 Tag}.
Local Open Scope result_scope.

(** [x.text] where [x] is a tag or [None]. *)
Definition text_of (x : option Tag) : result string :=
  match x with
  | Some t => text t
  | None => Raise (AttributeError "'NoneType' object has no attribute 'text'")
  end.

(** [listing.find(name, class_=c).text.strip()
     if listing.find(name, class_=c) else "N/A"]
    (lines 62-67: the condition is evaluated first, then [find] is called
    a second time for the text). *)
Definition text_or_NA (listing : Tag) (name c : string) : result string :=
  let? cond := find listing name c in
  match cond with
  | Some _ =>
      let? el := find listing name c in
      let? t := text_of el in
      Ok (strip t)
  | None => Ok NA
  end.

(** Lines 68-69. *)
Definition bedrooms_of (listing : Tag) : result string :=
  let? housing := find listing "span" "housing" in
  let? bedrooms :=
    match housing with
    | Some t => Ok (Some t)
    | None => find listing "span" "bedrooms"
    end in
  match bedrooms with
  | Some t => let? s := text t in Ok (strip s)
  | None => Ok NA
  end.

(** Lines 71-75.  [link.startswith] on a value that is not a [str] raises
    [AttributeError]. *)
Definition link_of (url : string) (listing : Tag) : result value :=
  let? link := find_attr listing "a" "href" in
  match link with
  | Some a =>
      let? link := getitem a "href" in
      match link with
      | AttrStr link =>
          if negb (startswith link "http") then Ok (VStr (url +:+ link))
          else Ok (VStr link)
      | AttrList _ =>
          Raise (AttributeError "'list' object has no attribute 'startswith'")
      end
  | None => Ok VNone
  end.

(** The body of the inner [try] (lines 62-83): the dict appended to
    [properties], or the exception that leaves the block. *)
Definition listing_record (url : string) (listing : Tag) : result dict :=
  let? title := text_or_NA listing "div" "title" in
  let? price := text_or_NA listing "div" "price" in
  let? location := text_or_NA listing "div" "location" in
  let? bedrooms := bedrooms_of listing in
  let? link := link_of url listing in
  Ok [("Title", VStr title); ("Price", VStr price);
      ("Location", VStr location); ("Bedrooms", VStr bedrooms);
      ("Link", link)].
End Listing.

(** ** The outside world *)

Definition nl : string := String "010"%char EmptyString.
Definition dq : string := String "034"%char EmptyString.

(** A [requests.Response], as far as the script reads it. *)
Record Response : Type := {
  status_code : nat;
  reason : string;
  resp_url : string;
  resp_text : string
}.

(** The [json=] payload of the Telegram call; [chat_id] is an environment
    variable and may be unset. *)
Record Payload : Type := {
  chat_id : option string;
  payload_text : string;
  parse_mode : string;
  disable_web_page_preview : bool
}.

(** The message [send_email] builds and the session it opens. *)
Record Email : Type := {
  smtp_host : string;
  smtp_port : nat;
  login_user : option string;
  login_password : option string;
  hdr_Subject : string;
  hdr_From : option string;
  hdr_To : option string;
  html_part : string
}.

(** What [DataFrame.to_csv(index=False)] writes: the header row and one row
    of cells per record (the quoting of a cell is left to the csv writer). *)
Record Csv : Type := {
  header : list string;
  rows : list (list string)
}.

Inductive level : Type := INFO | WARNING | ERROR.

(** An f-string, piece by piece: literal text, [{len(...)}] and [{str(e)}]. *)
Inductive piece : Type :=
| Lit (s : string)
| Len (n : nat)
| StrOf (e : exn).

(** The calls the script makes to the outside, in the order it makes them. *)
Inductive event : Type :=
| Get (url : string) (headers : list (string * string))
| Sleep (seconds : nat)
| FindAll (name c : string)
| Log (lvl : level) (msg : list piece)
| Print (msg : list piece)
| ToCsv (filename : string) (df : Csv)
| Post (url : string) (json : Payload)
| SmtpConnect (host : string) (port : nat)
| SmtpLogin (user password : option string)
| SendMail (msg : Email)
| SmtpQuit.

Record State : Type := {
  calls : list event;
  files : gmap string Csv
}.

(** [CONFIG]: the five environment variables, each possibly unset. *)
Record Config : Type := {
  telegram_token : option string;
  telegram_chat_id : option string;
  email_user : option string;
  email_password : option string;
  email_receiver : option string
}.

(** The calls of the SMTP session of lines 141-143: [SMTP_SSL(host, port)],
    [server.login], [server.send_message], and the QUIT that leaving the
    [with] block sends. *)
Inductive smtp_step : Type := Connecting | LoggingIn | Sending | Quitting.

(** How the outside answers.  [get_outcome n url] is the outcome of
    [requests.get] when [n] requests were made before it; [to_csv_outcome]
    is the error, if any, of opening the file for writing;
    [smtp_outcome msg step] is the error, if any, with which the mail
    server answers the call [step] of the session that carries [msg]. *)
Record World : Type := {
  CONFIG : Config;
  get_outcome : nat -> string -> result Response;
  post_outcome : string -> Payload -> result Response;
  to_csv_outcome : string -> option exn;
  smtp_outcome : Email -> smtp_step -> option exn
}.

Definition is_Get (ev : event) : bool :=
  match ev with Get _ _ => true | _ => false end.
Definition is_Sleep (ev : event) : bool :=
  match ev with Sleep _ => true | _ => false end.
Definition is_ToCsv (ev : event) : bool :=
  match ev with ToCsv _ _ => true | _ => false end.
Definition is_Post (ev : event) : bool :=
  match ev with Post _ _ => true | _ => false end.
Definition is_SendMail (ev : event) : bool :=
  match ev with SendMail _ => true | _ => false end.
Definition is_SmtpConnect (ev : event) : bool :=
  match ev with SmtpConnect _ _ => true | _ => false end.

(** Neither a request, a sleep nor a sink: a selector call or a line of
    output. *)
Definition quiet (ev : event) : bool :=
  match ev with
  | FindAll _ _ | Log _ _ | Print _ => true
  | _ => false
  end.

Fixpoint count (p : event -> bool) (l : list event) : nat :=
  match l with
  | [] => 0
  | ev :: l' => (if p ev then 1 else 0) + count p l'
  end.

(** ** The monad of the script: state and exceptions *)

Definition M (A : Type) : Type := State -> result A * State.

Definition ret {A : Type} (a : A) : M A := fun s => (Ok a, s).

Definition raise {A : Type} (e : exn) : M A := fun s => (Raise e, s).

Definition bind {A B : Type} (m : M A) (k : A -> M B) : M B :=
  fun s =>
    match m s with
    | (Ok a, s') => k a s'
    | (Raise e, s') => (Raise e, s')
    end.

Definition lift {A : Type} (r : result A) : M A := fun s => (r, s).

(** [try: body  except Exception as e: handler] *)
Definition try_except {A : Type} (body : M A) (handler : exn -> M A) : M A :=
  fun s =>
    match body s with
    | (Ok a, s') => (Ok a, s')
    | (Raise e, s') => handler e s'
    end.

(** The state after the calls [evs], the files untouched. *)
Definition emit (evs : list event) (s : State) : State :=
  {| calls := calls s ++ evs; files := files s |}.

Definition record_call (ev : event) (s : State) : State := emit [ev] s.

Definition call (ev : event) : M unit := fun s => (Ok tt, record_call ev s).

Declare Scope script_scope.
Delimit Scope script_scope with script.
Notation "'let!' x ':=' m 'in' k" := (bind m (fun x => k))
  (at level 10, x name, m at level 100, k at level 200) : script_scope.
Notation "m ';;' k" := (bind m (fun _ => k))
  (at level 100, k at level 200, right associativity) : script_scope.

(** The calls made between two states. *)
Definition since (s s' : State) : list event := drop (length (calls s)) (calls s').

(** ** The script *)

(** [f"{x}"] for an environment variable. *)
Definition format_env (x : option string) : string :=
  match x with
  | Some v => v
  | None => "None"
  end.

(** [response.raise_for_status()]: 4xx and 5xx raise [HTTPError]. *)
Definition raise_for_status (response : Response) : result unit :=
  let n := status_code response in
  if ((400 <=? n) && (n <? 500))%nat then
    Raise (HTTPError (pretty n +:+ " Client Error: " +:+ reason response
                      +:+ " for url: " +:+ resp_url response))
  else if ((500 <=? n) && (n <? 600))%nat then
    Raise (HTTPError (pretty n +:+ " Server Error: " +:+ reason response
                      +:+ " for url: " +:+ resp_url response))
  else Ok tt.

Definition headers : list (string * string) :=
  [("User-Agent",
    "Mozilla/5.0 (Windows NT 10.0; Win64; x64) " +:+
    "AppleWebKit/537.36 (KHTML, like Gecko) " +:+
    "Chrome/91.0.4472.124 Safari/537.36");
   ("Accept-Language", "en-US,en;q=0.9")].

(** The key order of the dict literal of lines 77-83. *)
Definition record_keys : list string :=
  ["Title"; "Price"; "Location"; "Bedrooms"; "Link"].

(** [pd.DataFrame(data)] for a list of dicts: the columns are the keys in
    the order in which they first appear, going through the dicts in order;
    a missing key or a [None] is an empty cell in the written file. *)
Definition add_columns (cols : list string) (d : dict) : list string :=
  fold_left
    (fun cols k => if existsb (String.eqb k) cols then cols else cols ++ [k])
    (keys d) cols.

Definition columns (data : list dict) : list string :=
  fold_left add_columns data [].

Definition cell (d : dict) (col : string) : string :=
  match get d col with
  | Some (VStr s) => s
  | Some VNone => EmptyString
  | None => EmptyString
  end.

Definition DataFrame (data : list dict) : Csv :=
  {| header := columns data;
     rows := map (fun d => map (cell d) (columns data)) data |}.

Section Script.
Context {Tag : Type} `{Bs4 Tag}.
Variable W : World.
Local Open Scope script_scope.

Definition gets (s : State) : nat := count is_Get (calls s).

(** [requests.get(url, headers=headers)] *)
Definition requests_get (url : string) (hs : list (string * string))
  : M Response :=
  fun s => (get_outcome W (gets s) url, record_call (Get url hs) s).

(** [requests.post(url, json=payload)] *)
Definition requests_post (url : string) (json : Payload) : M Response :=
  fun s => (post_outcome W url json, record_call (Post url json) s).

(** [time.sleep(seconds)] *)
Definition sleep (seconds : nat) : M unit := call (Sleep seconds).

Definition log (lvl : level) (msg : list piece) : M unit := call (Log lvl msg).

Definition print (msg : list piece) : M unit := call (Print msg).

(** [soup.find_all(name, class_=c)], the call being recorded. *)
Definition soup_find_all (soup : Tag) (name c : string) : M (list Tag) :=
  call (FindAll name c) ;; lift (find_all soup name c).

(** [a or b] on lists: [b] is evaluated only when [a] is empty. *)
Definition or_ {A : Type} (a b : M (list A)) : M (list A) :=
  let! x := a in
  match x with
  | [] => b
  | _ :: _ => ret x
  end.

(** Lines 52-54. *)
Definition find_listings (soup : Tag) : M (list Tag) :=
  or_ (soup_find_all soup "li" "cl-static-search-result")
      (or_ (soup_find_all soup "div" "result-row")
           (soup_find_all soup "div" "cl-search-result")).

(** The loop of lines 60-86, with [properties] as accumulator. *)
Fixpoint for_listings (url : string) (listings : list Tag)
    (properties : list dict) : M (list dict) :=
  match listings with
  | [] => ret properties
  | listing :: rest =>
      match listing_record url listing with
      | Ok r => for_listings url rest (properties ++ [r])
      | Raise e =>
          log WARNING [Lit "Error processing listing: "; StrOf e] ;;
          for_listings url rest properties
      end
  end.

(** The function under the decorator (lines 32-92): one attempt. *)
Definition scrape_properties_body (url : string) : M (list dict) :=
  try_except
    (let! response := requests_get url headers in
     lift (raise_for_status response) ;;
     let! soup := lift (BeautifulSoup (resp_text response)) in
     let! listings := find_listings soup in
     log INFO [Lit "Found "; Len (length listings); Lit " properties"] ;;
     print [Lit "Found "; Len (length listings); Lit " properties"] ;;
     for_listings url listings [])
    (fun e => log ERROR [Lit "Scraping failed: "; StrOf e] ;; raise e).

(** tenacity's loop for [stop_after_attempt(n)] and [wait_fixed(w)], with
    the defaults for the rest: every [Exception] is retried and
    [reraise=False].  The function is run; when it raises and the number of
    the attempt has reached [n], [RetryError(last_attempt)] is raised from
    the failure (the failure itself would be re-raised only under
    [reraise=True], which line 31 does not pass); otherwise tenacity sleeps
    [w] seconds and runs the function again.  [more] is [n] minus the number
    of the running attempt. *)
Fixpoint retrying {A : Type} (more wait : nat) (fn : M A) : M A :=
  fun s =>
    match fn s with
    | (Ok a, s') => (Ok a, s')
    | (Raise e, s') =>
        match more with
        | 0 => (Raise (RetryError e), s')
        | S more' => (sleep wait ;; retrying more' wait fn) s'
        end
    end.

(** [@retry(stop=stop_after_attempt(n), wait=wait_fixed(w))] *)
Definition retry {A : Type} (stop_after_attempt wait_fixed : nat) (fn : M A)
  : M A :=
  retrying (stop_after_attempt - 1) wait_fixed fn.

(** Line 31. *)
Definition scrape_properties (url : string) : M (list dict) :=
  retry 3 2 (scrape_properties_body url).

(** [df.to_csv(filename, index=False)]: the file is opened for writing,
    which replaces what it held. *)
Definition to_csv (df : Csv) (filename : string) : M unit :=
  fun s =>
    match to_csv_outcome W filename with
    | Some e => (Raise e, record_call (ToCsv filename df) s)
    | None =>
        (Ok tt,
         {| calls := calls s ++ [ToCsv filename df];
            files := <[filename := df]> (files s) |})
    end.

(** Lines 95-109. *)
Definition save_to_csv (data : list dict) (filename : string) : M unit :=
  try_except
    (let df := DataFrame data in
     to_csv df filename ;;
     log INFO [Lit "Successfully saved "; Len (length (rows df));
               Lit " listings to "; Lit filename] ;;
     print [Lit "Saved "; Len (length (rows df)); Lit " properties to ";
            Lit filename])
    (fun e => log ERROR [Lit "Failed to save CSV: "; StrOf e] ;; raise e).

(** One pass of the loop of lines 163-169: the text added for [prop]. *)
Definition alert_entry (prop : dict) : result string :=
  (let? title := subscript prop "Title" in
   let? price := subscript prop "Price" in
   let? bedrooms := subscript prop "Bedrooms" in
   let? location := subscript prop "Location" in
   let? link := subscript prop "Link" in
   Ok ("🏠 <b>" +:+ format title +:+ "</b>" +:+ nl +:+
       "💵 " +:+ format price +:+ " | 🛏️ " +:+ format bedrooms +:+ nl +:+
       "📍 " +:+ format location +:+ nl +:+
       "🔗 <a href='" +:+ format link +:+ "'>View Listing</a>" +:+ nl +:+ nl)
  )%res.

(** [for prop in props: message += ...] *)
Fixpoint alert_entries (props : list dict) (message : string)
  : result string :=
  match props with
  | [] => Ok message
  | prop :: rest =>
      (let? entry := alert_entry prop in
       alert_entries rest (message +:+ entry))%res
  end.

Definition no_properties_message : string := "⚠️ No properties found today".

(** Lines 159-169. *)
Definition alert_message (data : list dict) : result string :=
  match data with
  | [] => Ok no_properties_message
  | _ :: _ =>
      alert_entries (take 5 data)
        ("🏘️ <b>New Property Listings</b>" +:+ nl +:+ nl)
  end.

(** Lines 153-188. *)
Definition send_telegram_alert (data : list dict) : M unit :=
  let! message := lift (alert_message data) in
  let payload :=
    {| chat_id := telegram_chat_id (CONFIG W);
       payload_text := message;
       parse_mode := "HTML";
       disable_web_page_preview := true |} in
  try_except
    (let! response :=
       requests_post
         ("https://api.telegram.org/bot" +:+
          format_env (telegram_token (CONFIG W)) +:+ "/sendMessage")
         payload in
     lift (raise_for_status response) ;;
     log INFO [Lit "Telegram alert sent"] ;;
     print [Lit "Telegram alert sent"])
    (fun e =>
       log ERROR [Lit "Failed to send Telegram alert: "; StrOf e] ;; raise e).

(** One pass of the loop of lines 128-135. *)
Definition email_row (prop : dict) : result string :=
  (let? link := subscript prop "Link" in
   let? title := subscript prop "Title" in
   let? price := subscript prop "Price" in
   let? bedrooms := subscript prop "Bedrooms" in
   let? location := subscript prop "Location" in
   Ok (nl +:+
       "            <tr>" +:+ nl +:+
       "                <td><a href=" +:+ dq +:+ format link +:+ dq +:+ ">"
         +:+ format title +:+ "</a></td>" +:+ nl +:+
       "                <td>" +:+ format price +:+ "</td>" +:+ nl +:+
       "                <td>" +:+ format bedrooms +:+ "</td>" +:+ nl +:+
       "                <td>" +:+ format location +:+ "</td>" +:+ nl +:+
       "            </tr>")
  )%res.

Fixpoint email_rows (props : list dict) (html : string) : result string :=
  match props with
  | [] => Ok html
  | prop :: rest =>
      (let? row := email_row prop in email_rows rest (html +:+ row))%res
  end.

(** One call of the SMTP session: it is recorded, and it raises when the
    server answers it with an error. *)
Definition smtp_call (msg : Email) (step : smtp_step) (ev : event) : M unit :=
  fun s =>
    (match smtp_outcome W msg step with
     | Some e => Raise e
     | None => Ok tt
     end,
     record_call ev s).

(** [with ... as server: body]: when the block is left, normally or by an
    exception, [__exit__] runs; an exception of [__exit__] replaces the
    outcome of the block. *)
Definition with_exit {A : Type} (body : M A) (exit : M unit) : M A :=
  fun s =>
    match body s with
    | (r, s') =>
        match exit s' with
        | (Ok _, s'') => (r, s'')
        | (Raise e, s'') => (Raise e, s'')
        end
    end.

(** Lines 141-143.  [SMTP_SSL(host, port)] connects, and a failure to
    connect leaves before the block is entered; inside the block come
    [login] and then [send_message], which is reached only when [login]
    returns; [__exit__] sends QUIT. *)
Definition smtp_send (msg : Email) : M unit :=
  smtp_call msg Connecting (SmtpConnect (smtp_host msg) (smtp_port msg)) ;;
  with_exit
    (smtp_call msg LoggingIn
       (SmtpLogin (login_user msg) (login_password msg)) ;;
     smtp_call msg Sending (SendMail msg))
    (smtp_call msg Quitting SmtpQuit).

(** The message of lines 119-139 around the table [html], with the host,
    the port and the credentials of lines 141-142. *)
Definition email_message (html : string) : Email :=
  {| smtp_host := "smtp.gmail.com";
     smtp_port := 465;
     login_user := email_user (CONFIG W);
     login_password := email_password (CONFIG W);
     hdr_Subject := "🚀 New Property Listings";
     hdr_From := email_user (CONFIG W);
     hdr_To := email_receiver (CONFIG W);
     html_part := html +:+ "</table></body></html>" |}.

(** The table of lines 125-126 before its rows. *)
Definition email_table_head : string :=
  "<html><body><h2>New Property Listings</h2><table border="
  +:+ dq +:+ "1" +:+ dq +:+ ">" +:+
  "<tr><th>Title</th><th>Price</th><th>Bedrooms</th>" +:+
  "<th>Location</th></tr>".

(** Lines 112-150. *)
Definition send_email (data : list dict) : M unit :=
  try_except
    (let! html := lift (email_rows (take 10 data) email_table_head) in
     smtp_send (email_message html) ;;
     log INFO [Lit "Email sent successfully"] ;;
     print [Lit "Email sent successfully"])
    (fun e => log ERROR [Lit "Failed to send email: "; StrOf e] ;; raise e).

Definition target_url : string := "https://dallas.craigslist.org/search/rea".

(** Lines 191-212; [send_email] is commented out in the source. *)
Definition main : M unit :=
  try_except
    (let! properties := scrape_properties target_url in
     match properties with
     | _ :: _ =>
         save_to_csv properties "properties.csv" ;;
         send_telegram_alert properties
     | [] => log WARNING [Lit "No properties scraped"]
     end)
    (fun e => log ERROR [Lit "Script failed: "; StrOf e] ;; raise e).
End Script.

(** ** An executable bs4: rose trees *)

(** What a tag contains: child tags, text ([NavigableString]) and the
    strings [.text] leaves out (comments, declarations, ...). *)
Inductive content (T : Type) : Type :=
| Child (t : T)
| NavigableString (s : string)
| Comment (s : string).
Arguments Child {T} t.
Arguments NavigableString {T} s.
Arguments Comment {T} s.

#[warnings="-register-all"] Inductive tag : Type :=
| Element (name : string) (attrs : list (string * attr_value))
    (contents : list (content tag)).

Definition tag_name (t : tag) : string :=
  match t with Element name _ _ => name end.

Definition tag_attrs (t : tag) : list (string * attr_value) :=
  match t with Element _ attrs _ => attrs end.

Fixpoint attr (attrs : list (string * attr_value)) (k : string)
  : option attr_value :=
  match attrs with
  | [] => None
  | (k', v) :: rest => if String.eqb k' k then Some v else attr rest k
  end.

(** [tag.descendants], tags only, in document order. *)
Fixpoint descendants (t : tag) : list tag :=
  match t with
  | Element _ _ contents =>
      flat_map
        (fun c =>
           match c with
           | Child t' => t' :: descendants t'
           | _ => []
           end)
        contents
  end.

(** [tag.text]: the text strings below the tag, joined in document order. *)
Fixpoint get_text (t : tag) : string :=
  match t with
  | Element _ _ contents =>
      String.concat EmptyString
        (map
           (fun c =>
              match c with
              | Child t' => get_text t'
              | NavigableString s => s
              | Comment _ => EmptyString
              end)
           contents)
  end.

(** Whether the [class] attribute matches the single class [c]: one of its
    values is [c], or the whole attribute is. *)
Definition has_class (t : tag) (c : string) : bool :=
  match attr (tag_attrs t) "class" with
  | Some (AttrList l) =>
      existsb (String.eqb c) l || String.eqb (String.concat " " l) c
  | Some (AttrStr s) => String.eqb s c
  | None => false
  end.

Definition has_attr (t : tag) (a : string) : bool :=
  match attr (tag_attrs t) a with
  | Some _ => true
  | None => false
  end.

Definition tree_find_all (t : tag) (name c : string) : list tag :=
  List.filter (fun d => String.eqb (tag_name d) name && has_class d c)
    (descendants t).

Definition tree_find_attr (t : tag) (name a : string) : option tag :=
  head (List.filter (fun d => String.eqb (tag_name d) name && has_attr d a)
          (descendants t)).

Definition tree_getitem (t : tag) (a : string) : result attr_value :=
  match attr (tag_attrs t) a with
  | Some v => Ok v
  | None => Raise (KeyError a)
  end.

(** The parser is a parameter: [parser text] is the tree html.parser builds
    from [text], or the exception it raises. *)
Definition TreeBs4 (parser : string -> result tag) : Bs4 tag :=
  {| BeautifulSoup := parser;
     find_all t name c := Ok (tree_find_all t name c);
     find t name c := Ok (head (tree_find_all t name c));
     find_attr t name a := Ok (tree_find_attr t name a);
     text t := Ok (get_text t);
     getitem := tree_getitem |}.

(** ** What a pass over the listings yields *)

Section Outcomes.
Context {Tag : Type} `{Bs4 Tag}.

(** The records of the nodes whose extraction does not raise, in the order
    of the nodes. *)
Definition records (url : string) (listings : list Tag) : list dict :=
  omap (fun listing => to_option (listing_record url listing)) listings.

(** The warnings of the nodes whose extraction raises. *)
Definition warnings (url : string) (listings : list Tag) : list event :=
  flat_map
    (fun listing =>
       match listing_record url listing with
       | Ok _ => []
       | Raise e => [Log WARNING [Lit "Error processing listing: "; StrOf e]]
       end)
    listings.

(** The text of a field whose element is [x]: its stripped text, or the
    sentinel when there is no such element. *)
Definition field_text (x : option Tag) : result string :=
  match x with
  | Some t => rbind (text t) (fun s => Ok (strip s))
  | None => Ok NA
  end.

(** The value of the expression of lines 52-54. *)
Definition listings_value (soup : Tag) : result (list Tag) :=
  match find_all soup "li" "cl-static-search-result" with
  | Ok [] =>
      match find_all soup "div" "result-row" with
      | Ok [] => find_all soup "div" "cl-search-result"
      | other => other
      end
  | other => other
  end.
End Outcomes.

(** The calls of one attempt: the request, then selector calls and output. *)
Definition attempt_calls (url : string) (evs : list event) : Prop :=
  exists rest,
    evs = Get url headers :: rest /\ Forall (fun ev => quiet ev = true) rest.

(** [parts] laid end to end with [sep] between neighbours. *)
Fixpoint interleave (sep : list event) (parts : list (list event))
  : list event :=
  match parts with
  | [] => []
  | [p] => p
  | p :: rest => p ++ sep ++ interleave sep rest
  end.

(** Not a call to a sink. *)
Definition no_sink (ev : event) : bool :=
  negb (is_ToCsv ev || is_Post ev || is_SendMail ev).

(** ** Sample documents and worlds *)

Definition class_ (c : string) : list (string * attr_value) :=
  [("class", AttrList [c])].

Definition div (c s : string) : content tag :=
  Child (Element "div" (class_ c) [NavigableString s]).

Definition span (c s : string) : content tag :=
  Child (Element "span" (class_ c) [NavigableString s]).

Definition li (contents : list (content tag)) : tag :=
  Element "li" (class_ "cl-static-search-result") contents.

(** A complete listing with a relative link. *)
Definition anchor_full : tag :=
  Element "a" [("href", AttrStr "/post/123")]
    [div "title" "  Cozy bungalow ";
     div "price" "$1,200";
     div "location" (nl +:+ " Oak Cliff" +:+ nl);
     span "bedrooms" "3br";
     span "housing" " 2br - 900ft2 "].

Definition listing_full : tag := li [Child anchor_full].

Definition record_full : dict :=
  [("Title", VStr "Cozy bungalow"); ("Price", VStr "$1,200");
   ("Location", VStr "Oak Cliff"); ("Bedrooms", VStr "2br - 900ft2");
   ("Link", VStr "https://dallas.craigslist.org/search/rea/post/123")].

(** A listing with nothing in it. *)
Definition listing_bare : tag := li [NavigableString "sold"].

Definition record_bare : dict :=
  [("Title", VStr "N/A"); ("Price", VStr "N/A"); ("Location", VStr "N/A");
   ("Bedrooms", VStr "N/A"); ("Link", VNone)].

(** A listing whose link starts with the four characters but is no URL. *)
Definition anchor_httpfoo : tag :=
  Element "a" [("href", AttrStr "httpfoo")] [div "title" "Loft"].

Definition listing_httpfoo : tag := li [Child anchor_httpfoo].

Definition record_httpfoo : dict :=
  [("Title", VStr "Loft"); ("Price", VStr "N/A"); ("Location", VStr "N/A");
   ("Bedrooms", VStr "N/A"); ("Link", VStr "httpfoo")].

(** A listing with a title and a price, and neither location, bedrooms nor
    link. *)
Definition listing_nolink : tag :=
  li [div "title" " Shed "; div "price" "$50"].

Definition record_nolink : dict :=
  [("Title", VStr "Shed"); ("Price", VStr "$50"); ("Location", VStr "N/A");
   ("Bedrooms", VStr "N/A"); ("Link", VNone)].

(** A listing whose [href] is not a [str]: [startswith] raises on it. *)
Definition listing_odd : tag :=
  li [Child (Element "a" [("href", AttrList ["/post/7"])] [div "title" "Odd"])].

Definition document (contents : list (content tag)) : tag :=
  Element "[document]" [] contents.

Definition page_listings : tag :=
  document
    [Child (Element "ul" []
       [Child listing_full; Child listing_odd; Child listing_bare;
        Child listing_httpfoo]);
     Child (Element "div" (class_ "result-row") [NavigableString "old markup"])].

(** A page in the older markup only. *)
Definition page_old : tag :=
  document
    [Child (Element "div" (class_ "result-row") [div "title" "Ranch"]);
     Child (Element "div" (class_ "cl-search-result") [div "title" "Barn"]);
     Child (Element "div" (class_ "result-row") [div "title" "Silo"])].

Definition page_empty : tag :=
  document [Child (Element "p" [] [NavigableString "nothing today"])].

(** What bs4 raises when html.parser gives up on the markup (an
    [AssertionError] of the parser on a broken [<![...]>] section). *)
Definition rejected : exn :=
  Exc "ParserRejectedMarkup" "expected name token at '<![ endif]>'".

(** A stand-in for html.parser on three bodies: two that parse to the pages
    above and any other, taken to be rejected. *)
Definition sample_parser (markup : string) : result tag :=
  if String.eqb markup "listings" then Ok page_listings
  else if String.eqb markup "empty" then Ok page_empty
  else Raise rejected.

#[export] Instance sample_bs4 : Bs4 tag := TreeBs4 sample_parser.

Definition refused : exn := Exc "ConnectionError" "connection refused".

Definition ok_response (url markup : string) : Response :=
  {| status_code := 200; reason := "OK"; resp_url := url;
     resp_text := markup |}.

Definition no_config : Config :=
  {| telegram_token := None; telegram_chat_id := None; email_user := None;
     email_password := None; email_receiver := None |}.

(** A world that answers [requests.get] by [answer] and in which every sink
    works. *)
Definition world (answer : nat -> string -> result Response) : World :=
  {| CONFIG := no_config;
     get_outcome := answer;
     post_outcome := fun url _ => Ok (ok_response url "{}");
     to_csv_outcome := fun _ => None;
     smtp_outcome := fun _ _ => None |}.

(** The page is served at once. *)
Definition online : World := world (fun _ url => Ok (ok_response url "listings")).

(** The page is served, and holds no listing. *)
Definition quiet_day : World := world (fun _ url => Ok (ok_response url "empty")).

(** The first two requests fail, the third is served. *)
Definition flaky : World :=
  world (fun n url =>
           if (n <? 2)%nat then Raise refused else Ok (ok_response url "listings")).

(** No request is ever served. *)
Definition down : World := world (fun _ _ => Raise refused).

(** Every request is served, with markup the parser rejects. *)
Definition garbled : World :=
  world (fun _ url => Ok (ok_response url "<![ endif]>")).

Definition start : State := {| calls := []; files := ∅ |}.

(** A state in which the output file already exists. *)
Definition stale : State :=
  {| calls := [];
     files := {["properties.csv" := {| header := ["Old"]; rows := [["row"]] |}]} |}.

(** Records whose keys were inserted in another order. *)
Definition shuffled : list dict :=
  [[("Price", VStr "$900"); ("Title", VStr "Flat"); ("Link", VNone);
    ("Bedrooms", VStr "1br"); ("Location", VStr "Plano")]].

(** Dicts with different keys: the second brings two new ones. *)
Definition ragged : list dict :=
  [[("a", VStr "1"); ("b", VStr "2")];
   [("c", VStr "3"); ("a", VStr "4"); ("d", VNone)]].

(** The page is served and the mail server refuses the login. *)
Definition mail_refused : World :=
  {| CONFIG := no_config;
     get_outcome := fun _ url => Ok (ok_response url "listings");
     post_outcome := fun url _ => Ok (ok_response url "{}");
     to_csv_outcome := fun _ => None;
     smtp_outcome :=
       fun _ step =>
         match step with
         | LoggingIn => Some (Exc "SMTPAuthenticationError" "535")
         | _ => None
         end |}.

(** A record that lacks every key but Title. *)
Definition incomplete : list dict := [record_full; [("Title", VStr "Flat")]].



(** The page is served and the chat server cannot be reached. *)
Definition chat_down : World :=
  {| CONFIG := no_config;
     get_outcome := fun _ url => Ok (ok_response url "listings");
     post_outcome := fun _ _ => Raise refused;
     to_csv_outcome := fun _ => None;
     smtp_outcome := fun _ _ => None |}.

(** ** States and calls *)

Lemma emit_nil (s : State) : emit [] s = s.
Proof. destruct s. unfold emit. simpl. by rewrite app_nil_r. Qed.

Lemma emit_emit (evs1 evs2 : list event) (s : State) :
  emit evs2 (emit evs1 s) = emit (evs1 ++ evs2) s.
Proof. unfold emit. simpl. by rewrite <- app_assoc. Qed.

Lemma since_emit (s : State) (evs : list event) : since s (emit evs s) = evs.
Proof. unfold since, emit. simpl. apply drop_app_length. Qed.

Lemma since_calls (s s' : State) (evs : list event) :
  calls s' = calls s ++ evs -> since s s' = evs.
Proof. intros E. unfold since. rewrite E. apply drop_app_length. Qed.

Lemma count_app (p : event -> bool) (l1 l2 : list event) :
  count p (l1 ++ l2) = count p l1 + count p l2.
Proof. induction l1 as [|ev l1 IH]; simpl; [done|]. rewrite IH. lia. Qed.

Lemma count_none (p q : event -> bool) (l : list event) :
  (forall ev, q ev = true -> p ev = false) ->
  Forall (fun ev => q ev = true) l -> count p l = 0.
Proof.
  intros Hpq. induction 1 as [|ev l Hq _ IH]; simpl; [done|].
  by rewrite (Hpq ev Hq), IH.
Qed.

Lemma quiet_not_Get ev : quiet ev = true -> is_Get ev = false.
Proof. by destruct ev. Qed.
Lemma quiet_not_Sleep ev : quiet ev = true -> is_Sleep ev = false.
Proof. by destruct ev. Qed.
Lemma quiet_not_ToCsv ev : quiet ev = true -> is_ToCsv ev = false.
Proof. by destruct ev. Qed.
Lemma quiet_not_Post ev : quiet ev = true -> is_Post ev = false.
Proof. by destruct ev. Qed.
Lemma quiet_not_SendMail ev : quiet ev = true -> is_SendMail ev = false.
Proof. by destruct ev. Qed.

Create HintDb quiet.
#[export] Hint Resolve quiet_not_Get quiet_not_Sleep quiet_not_ToCsv
  quiet_not_Post quiet_not_SendMail : quiet.

Ltac quiet_list :=
  repeat first
    [ apply Forall_nil_2
    | apply Forall_cons_2; [reflexivity|]
    | apply Forall_app_2
    | assumption ].

(** ** The loop and the selector chain *)

Section Extraction.
Context {Tag : Type} `{Bs4 Tag}.

Lemma warnings_quiet url (listings : list Tag) :
  Forall (fun ev => quiet ev = true) (warnings url listings).
Proof.
  induction listings as [|n l IH]; unfold warnings; simpl; [constructor|].
  destruct (listing_record url n); simpl; [exact IH|].
  constructor; [reflexivity|exact IH].
Qed.

Lemma for_listings_spec url (listings : list Tag) properties s :
  for_listings url listings properties s
  = (Ok (properties ++ records url listings), emit (warnings url listings) s).
Proof.
  revert properties s.
  induction listings as [|n l IH]; intros properties s; simpl.
  - unfold ret, records, warnings. simpl. by rewrite emit_nil, app_nil_r.
  - unfold records, warnings. simpl.
    destruct (listing_record url n) as [r|e]; simpl.
    + rewrite IH. by rewrite <- app_assoc.
    + unfold bind, log, call, record_call. rewrite IH. by rewrite emit_emit.
Qed.

Lemma records_app url (l1 l2 : list Tag) :
  records url (l1 ++ l2) = records url l1 ++ records url l2.
Proof. apply omap_app. Qed.

Lemma records_skip url (before after : list Tag) node e :
  listing_record url node = Raise e ->
  records url (before ++ node :: after)
  = records url before ++ records url after.
Proof.
  intros E. rewrite records_app. f_equal.
  unfold records. simpl. by rewrite E.
Qed.

Lemma records_cons_Ok url (n : Tag) l r :
  listing_record url n = Ok r -> records url (n :: l) = r :: records url l.
Proof. intros E. unfold records. simpl. by rewrite E. Qed.

Lemma warnings_app url (l1 l2 : list Tag) :
  warnings url (l1 ++ l2) = warnings url l1 ++ warnings url l2.
Proof. unfold warnings. apply flat_map_app. Qed.

Lemma listing_record_keys url (listing : Tag) r :
  listing_record url listing = Ok r -> keys r = record_keys.
Proof.
  unfold listing_record, rbind. intros E.
  repeat match type of E with
         | match ?x with _ => _ end = _ => destruct x; [|discriminate]
         end.
  by injection E as <-.
Qed.

Lemma records_keys url (listings : list Tag) :
  Forall (fun r => keys r = record_keys) (records url listings).
Proof.
  induction listings as [|n l IH]; unfold records; simpl; [constructor|].
  destruct (listing_record url n) as [r|e] eqn:E; simpl; [|exact IH].
  constructor; [by eapply listing_record_keys|exact IH].
Qed.

Lemma soup_find_all_spec (soup : Tag) name c s :
  soup_find_all soup name c s
  = (find_all soup name c, emit [FindAll name c] s).
Proof. reflexivity. Qed.

Lemma find_listings_spec (soup : Tag) s :
  exists evs,
    find_listings soup s = (listings_value soup, emit evs s)
    /\ Forall (fun ev => quiet ev = true) evs.
Proof.
  unfold find_listings, or_, bind, listings_value, ret.
  rewrite soup_find_all_spec.
  destruct (find_all soup "li" "cl-static-search-result") as [[|a la]|e];
    [|eexists; split; [reflexivity|quiet_list]..].
  rewrite soup_find_all_spec.
  destruct (find_all soup "div" "result-row") as [[|b lb]|e];
    [|rewrite emit_emit; eexists; split; [reflexivity|quiet_list]..].
  rewrite soup_find_all_spec, !emit_emit.
  eexists; split; [reflexivity|quiet_list].
Qed.
End Extraction.

(** ** One attempt *)

Section Attempt.
Context {Tag : Type} `{Bs4 Tag}.
Variable W : World.

Ltac step_body :=
  unfold scrape_properties_body, try_except, bind, requests_get, lift, log,
    print, raise, call, record_call.

(** An attempt whose request, status check, parse and selector chain go
    through returns the records of the listings, whatever single nodes do. *)
Lemma body_ok url s response (soup : Tag) listings :
  get_outcome W (gets s) url = Ok response ->
  raise_for_status response = Ok tt ->
  BeautifulSoup (resp_text response) = Ok soup ->
  listings_value soup = Ok listings ->
  exists evs,
    scrape_properties_body W url s
    = (Ok (records url listings),
       emit (Get url headers :: evs ++ warnings url listings) s)
    /\ Forall (fun ev => quiet ev = true) evs.
Proof.
  intros Hget Hstatus Hsoup Hlist.
  destruct (find_listings_spec soup (emit [Get url headers] s))
    as (evs & Hfind & Hquiet).
  exists (evs ++ [Log INFO [Lit "Found "; Len (length listings);
                            Lit " properties"];
                  Print [Lit "Found "; Len (length listings);
                         Lit " properties"]]).
  split; [|quiet_list].
  step_body. rewrite Hget, Hstatus, Hsoup, Hfind, Hlist.
  rewrite for_listings_spec. simpl. rewrite !emit_emit.
  by rewrite <- ?app_assoc.
Qed.

(** Every attempt either raises or is one of the above; its calls are one
    request followed by quiet calls. *)
Lemma body_cases url s :
  (exists e evs,
      scrape_properties_body W url s = (Raise e, emit (Get url headers :: evs) s)
      /\ Forall (fun ev => quiet ev = true) evs)
  \/ (exists listings evs,
        scrape_properties_body W url s
        = (Ok (records url listings), emit (Get url headers :: evs) s)
        /\ Forall (fun ev => quiet ev = true) evs).
Proof.
  destruct (get_outcome W (gets s) url) as [response|e] eqn:Hget.
  2: { left. exists e, [Log ERROR [Lit "Scraping failed: "; StrOf e]].
       split; [|quiet_list]. step_body. rewrite Hget. by rewrite emit_emit. }
  destruct (raise_for_status response) as [[]|e] eqn:Hstatus.
  2: { left. exists e, [Log ERROR [Lit "Scraping failed: "; StrOf e]].
       split; [|quiet_list]. step_body. rewrite Hget, Hstatus.
       by rewrite emit_emit. }
  destruct (BeautifulSoup (resp_text response)) as [soup|e] eqn:Hsoup.
  2: { left. exists e, [Log ERROR [Lit "Scraping failed: "; StrOf e]].
       split; [|quiet_list]. step_body. rewrite Hget, Hstatus, Hsoup.
       by rewrite emit_emit. }
  destruct (listings_value soup) as [listings|e] eqn:Hlist.
  - right. destruct (body_ok url s response soup listings) as (evs & E & Hq);
      try done.
    exists listings, (evs ++ warnings url listings). split; [exact E|].
    apply Forall_app_2; [exact Hq|apply warnings_quiet].
  - left. destruct (find_listings_spec soup (emit [Get url headers] s))
      as (evs & Hfind & Hquiet).
    exists e, (evs ++ [Log ERROR [Lit "Scraping failed: "; StrOf e]]).
    split; [|quiet_list]. step_body.
    rewrite Hget, Hstatus, Hsoup, Hfind, Hlist. rewrite !emit_emit.
    by rewrite <- ?app_assoc.
Qed.

Lemma body_calls url s :
  exists evs,
    snd (scrape_properties_body W url s) = emit evs s /\ attempt_calls url evs.
Proof.
  destruct (body_cases url s) as [(e & evs & E & Hq)|(l & evs & E & Hq)];
    rewrite E; (eexists; split; [reflexivity|by exists evs]).
Qed.

Lemma attempt_calls_counts url evs :
  attempt_calls url evs ->
  count is_Get evs = 1 /\ count is_Sleep evs = 0
  /\ (forall n, Sleep n ∈ evs -> False).
Proof.
  intros (rest & -> & Hq). simpl.
  rewrite (count_none is_Get quiet), (count_none is_Sleep quiet);
    auto with quiet.
  repeat split. intros n Hin. apply elem_of_cons in Hin as [Hin|Hin]; [done|].
  rewrite Forall_forall in Hq. by specialize (Hq _ Hin).
Qed.

(** The decorated function, attempt by attempt. *)
Lemma scrape_properties_unfold url s :
  scrape_properties W url s
  = match scrape_properties_body W url s with
    | (Ok props, s1) => (Ok props, s1)
    | (Raise _, s1) =>
        match scrape_properties_body W url (emit [Sleep 2] s1) with
        | (Ok props, s2) => (Ok props, s2)
        | (Raise _, s2) =>
            match scrape_properties_body W url (emit [Sleep 2] s2) with
            | (Ok props, s3) => (Ok props, s3)
            | (Raise e, s3) => (Raise (RetryError e), s3)
            end
        end
    end.
Proof.
  unfold scrape_properties, retry. simpl.
  destruct (scrape_properties_body W url s) as [[props|e1] s1]; [done|].
  unfold bind, sleep, call, record_call. simpl.
  destruct (scrape_properties_body W url (emit [Sleep 2] s1))
    as [[props|e2] s2]; [done|].
  by destruct (scrape_properties_body W url (emit [Sleep 2] s2))
    as [[props|e3] s3].
Qed.
End Attempt.

(** ** The retried call *)

Lemma attempt_calls_no_sink url evs :
  attempt_calls url evs -> Forall (fun ev => no_sink ev = true) evs.
Proof.
  intros (rest & -> & Hq). constructor; [reflexivity|].
  eapply Forall_impl; [exact Hq|]. by intros [].
Qed.

Lemma interleave_cons sep p q parts :
  interleave sep (p :: q :: parts) = p ++ sep ++ interleave sep (q :: parts).
Proof. reflexivity. Qed.

Lemma interleave_counts url attempts :
  Forall (attempt_calls url) attempts ->
  count is_Get (interleave [Sleep 2] attempts) = length attempts
  /\ count is_Sleep (interleave [Sleep 2] attempts) = length attempts - 1
  /\ (forall n, Sleep n ∈ interleave [Sleep 2] attempts -> n = 2)
  /\ Forall (fun ev => no_sink ev = true) (interleave [Sleep 2] attempts).
Proof.
  induction 1 as [|p parts Hp Hparts IH].
  { simpl. split_and!; [done|done|by intros n Hn%elem_of_nil|constructor]. }
  destruct (attempt_calls_counts url p Hp) as (Hg & Hs & Hno).
  pose proof (attempt_calls_no_sink url p Hp) as Hsink.
  destruct parts as [|q parts].
  { simpl. split_and!; [lia|lia| |done]. intros n Hn. by destruct (Hno n). }
  destruct IH as (IHg & IHs & IHn & IHsink).
  rewrite interleave_cons, !count_app, Hg, Hs, IHg, IHs.
  cbn [count is_Get is_Sleep length].
  split_and!; [lia|lia| |].
  - intros n [Hn|Hn]%elem_of_app; [by destruct (Hno n)|].
    apply elem_of_cons in Hn as [Hn|Hn]; [congruence|by apply IHn].
  - apply Forall_app_2; [done|]. constructor; [reflexivity|done].
Qed.

Section Retried.
Context {Tag : Type} `{Bs4 Tag}.
Variable W : World.

(** The calls of the retried function: at most [more + 1] attempts, with a
    sleep of 2 between neighbours. *)
Lemma retrying_calls more url s :
  exists attempts,
    snd (retrying more 2 (scrape_properties_body W url) s)
    = emit (interleave [Sleep 2] attempts) s
    /\ 1 <= length attempts <= S more
    /\ Forall (attempt_calls url) attempts.
Proof.
  revert s. induction more as [|more IH]; intros s; simpl;
    destruct (body_calls W url s) as (a1 & E1 & H1);
    destruct (scrape_properties_body W url s) as [[props|e1] s1];
    simpl in E1; subst s1.
  - exists [a1]. simpl. split_and!; [done|lia|lia|by constructor].
  - exists [a1]. simpl. split_and!; [done|lia|lia|by constructor].
  - exists [a1]. simpl. split_and!; [done|lia|lia|by constructor].
  - unfold bind, sleep, call, record_call.
    destruct (IH (emit [Sleep 2] (emit a1 s))) as (rest & E & Hlen & Hall).
    exists (a1 :: rest). rewrite E, !emit_emit.
    destruct rest as [|a2 rest]; [simpl in Hlen; lia|].
    rewrite interleave_cons, <- ?app_assoc.
    split_and!; [done|simpl; lia|simpl in *; lia|by constructor].
Qed.

Lemma scrape_properties_calls url s :
  exists attempts,
    snd (scrape_properties W url s) = emit (interleave [Sleep 2] attempts) s
    /\ 1 <= length attempts <= 3
    /\ Forall (attempt_calls url) attempts.
Proof. apply (retrying_calls 2). Qed.

Lemma scrape_properties_keeps_files url s :
  files (snd (scrape_properties W url s)) = files s.
Proof. destruct (scrape_properties_calls url s) as (a & -> & _). done. Qed.
End Retried.

(** ** The sinks and [main] *)

Section Sinks.
Variable W : World.

Ltac step_sink :=
  unfold try_except, bind, requests_post, smtp_send, to_csv, lift, log, print,
    raise, call, record_call.

Lemma save_to_csv_calls data filename s :
  exists rest,
    calls (snd (save_to_csv W data filename s))
    = calls s ++ ToCsv filename (DataFrame data) :: rest
    /\ Forall (fun ev => quiet ev = true) rest.
Proof.
  unfold save_to_csv. step_sink.
  destruct (to_csv_outcome W filename); simpl; rewrite <- ?app_assoc;
    (eexists; split; [reflexivity|quiet_list]).
Qed.

Lemma send_telegram_alert_calls data s :
  exists evs,
    snd (send_telegram_alert W data s) = emit evs s
    /\ (evs = []
        \/ exists url json rest,
             evs = Post url json :: rest
             /\ Forall (fun ev => quiet ev = true) rest).
Proof.
  unfold send_telegram_alert. step_sink.
  destruct (alert_message data) as [message|e].
  2: { exists []. rewrite emit_nil. by split; [|left]. }
  match goal with
  | |- context [post_outcome W ?u ?j] =>
      destruct (post_outcome W u j) as [response|e]
  end.
  2: { rewrite emit_emit. eexists. split; [reflexivity|right].
       do 3 eexists. split; [reflexivity|quiet_list]. }
  destruct (raise_for_status response) as [[]|e]; rewrite !emit_emit;
    (eexists; split; [reflexivity|right]);
    (do 3 eexists; split; [reflexivity|quiet_list]).
Qed.

(** The session: one attempt to connect, and the mail handed over exactly
    when connecting and logging in go through. *)
Lemma smtp_send_calls msg s :
  exists evs r,
    smtp_send W msg s = (r, emit evs s)
    /\ count is_SmtpConnect evs = 1
    /\ count is_SendMail evs <= 1
    /\ count is_ToCsv evs = 0
    /\ count is_Post evs = 0
    /\ (count is_SendMail evs = 1
        <-> smtp_outcome W msg Connecting = None
            /\ smtp_outcome W msg LoggingIn = None).
Proof.
  unfold smtp_send, with_exit, bind, smtp_call, record_call.
  destruct (smtp_outcome W msg Connecting) as [e1|];
    [|destruct (smtp_outcome W msg LoggingIn) as [e2|];
      [|destruct (smtp_outcome W msg Sending) as [e3|]];
      destruct (smtp_outcome W msg Quitting) as [e4|]];
    rewrite ?emit_emit; (do 2 eexists; split; [reflexivity|]); simpl;
    (split; [lia|]); (split; [lia|]); (split; [lia|]); (split; [lia|]);
    (split;
     [intros ?; first [lia|by split]
     |intros [? ?]; first [discriminate|lia]]).
Qed.

Lemma send_email_calls data s :
  exists evs,
    snd (send_email W data s) = emit evs s
    /\ count is_SendMail evs <= 1
    /\ count is_ToCsv evs = 0 /\ count is_Post evs = 0.
Proof.
  unfold send_email, try_except, bind, lift, log, print, raise, call,
    record_call.
  match goal with
  | |- context [email_rows ?d ?h] => destruct (email_rows d h) as [html|e]
  end.
  2: { eexists. split; [reflexivity|]. simpl. lia. }
  destruct (smtp_send_calls (email_message W html) s)
    as (evs & r & E & _ & Hle & Hcsv & Hpost & _).
  rewrite E. destruct r as [[]|e]; rewrite !emit_emit;
    (eexists; split; [reflexivity|]); rewrite !count_app; simpl; lia.
Qed.
End Sinks.

Section Main.
Context {Tag : Type} `{Bs4 Tag}.
Variable W : World.

Lemma main_calls s :
  exists evs,
    calls (snd (main W s)) = calls s ++ evs
    /\ count is_ToCsv evs <= 1
    /\ count is_Post evs <= 1
    /\ count is_SendMail evs = 0.
Proof.
  unfold main, try_except, bind.
  destruct (scrape_properties_calls W target_url s) as (att & E0 & _ & Hatt).
  destruct (interleave_counts _ _ Hatt) as (_ & _ & _ & Hns).
  set (evs0 := interleave [Sleep 2] att) in *.
  assert (count is_ToCsv evs0 = 0 /\ count is_Post evs0 = 0
          /\ count is_SendMail evs0 = 0) as (C1 & C2 & C3).
  { split_and!; apply (count_none _ no_sink); try done; by intros []. }
  destruct (scrape_properties W target_url s) as [[props|e] s0];
    simpl in E0; subst s0.
  2: { exists (evs0 ++ [Log ERROR [Lit "Script failed: "; StrOf e]]).
       unfold log, raise, call, record_call. simpl.
       rewrite <- app_assoc, !count_app. simpl. split; [done|lia]. }
  destruct props as [|p props].
  { exists (evs0 ++ [Log WARNING [Lit "No properties scraped"]]).
    unfold log, call, record_call. simpl.
    rewrite <- app_assoc, !count_app. simpl. split; [done|lia]. }
  destruct (save_to_csv_calls W (p :: props) "properties.csv" (emit evs0 s))
    as (q1 & E1 & Hq1).
  assert (count is_ToCsv q1 = 0 /\ count is_Post q1 = 0
          /\ count is_SendMail q1 = 0) as (D1 & D2 & D3).
  { split_and!; apply (count_none _ quiet); auto with quiet. }
  destruct (save_to_csv W (p :: props) "properties.csv" (emit evs0 s))
    as [[[]|e] s1]; simpl in E1.
  2: { eexists. unfold log, raise, call, record_call. simpl. rewrite E1.
       rewrite <- !app_assoc. split; [reflexivity|].
       repeat (progress (rewrite ?count_app; simpl)). lia. }
  destruct (send_telegram_alert_calls W (p :: props) s1) as (q2 & E2 & Hq2).
  assert (count is_ToCsv q2 = 0 /\ count is_Post q2 <= 1
          /\ count is_SendMail q2 = 0) as (F1 & F2 & F3).
  { destruct Hq2 as [->|(u & j & rest & -> & Hrest)]; [simpl; lia|]. simpl.
    rewrite !(count_none _ quiet); auto with quiet. }
  destruct (send_telegram_alert W (p :: props) s1) as [[[]|e] s2];
    simpl in E2; subst s2.
  - eexists. simpl. rewrite E1, <- !app_assoc. split; [reflexivity|].
    repeat (progress (rewrite ?count_app; simpl)). lia.
  - eexists. unfold log, raise, call, record_call. simpl.
    rewrite E1, <- !app_assoc. split; [reflexivity|].
    repeat (progress (rewrite ?count_app; simpl)). lia.
Qed.
End Main.

(** ** Properties of the extraction *)

Section ExtractionClaims.
Context {Tag : Type} `{Bs4 Tag}.
Variable W : World.

(** C1.  When the extraction of one listing node raises, the exception is
    caught and logged as a warning and only that node is skipped: the call
    returns the records of the other nodes, unchanged and in order, after a
    single request and without a retry.  The loop itself returns a list for
    every batch of nodes: it never raises. *)
Theorem failing_listing_is_skipped url s response (soup : Tag)
    before node after e :
  get_outcome W (gets s) url = Ok response ->
  raise_for_status response = Ok tt ->
  BeautifulSoup (resp_text response) = Ok soup ->
  listings_value soup = Ok (before ++ node :: after) ->
  listing_record url node = Raise e ->
  (exists s',
      scrape_properties W url s
      = (Ok (records url before ++ records url after), s')
      /\ Log WARNING [Lit "Error processing listing: "; StrOf e] ∈ since s s'
      /\ count is_Get (since s s') = 1
      /\ count is_Sleep (since s s') = 0)
  /\ (forall (listings : list Tag) s0,
        fst (for_listings url listings [] s0) = Ok (records url listings)).
Proof.
  intros Hget Hstatus Hsoup Hlist Hnode. split.
  - destruct (body_ok W url s response soup _ Hget Hstatus Hsoup Hlist)
      as (evs & E & Hq).
    rewrite scrape_properties_unfold, E, (records_skip url _ _ _ _ Hnode).
    eexists. split; [reflexivity|]. rewrite since_emit.
    split_and!.
    + rewrite warnings_app. unfold warnings at 2. simpl. rewrite Hnode.
      apply elem_of_cons. right. apply elem_of_app. right.
      apply elem_of_app. right. simpl. apply elem_of_cons. by left.
    + simpl. rewrite count_app.
      rewrite !(count_none is_Get quiet);
        auto using warnings_quiet with quiet.
    + simpl. rewrite count_app.
      rewrite !(count_none is_Sleep quiet);
        auto using warnings_quiet with quiet.
  - intros listings s0. by rewrite for_listings_spec.
Qed.

(** C2.  Node discovery takes the first selector that matches something:
    when [li.cl-static-search-result] matches, the listings are exactly its
    matches and no other selector is called; when it matches nothing and
    [div.result-row] matches, the listings are exactly the matches of the
    latter and [div.cl-search-result] is not called; otherwise the listings
    are what [div.cl-search-result] gives.  No two results are merged. *)
Theorem first_nonempty_selector_wins (soup : Tag) s :
  (forall a,
      find_all soup "li" "cl-static-search-result" = Ok a -> a <> [] ->
      find_listings soup s
      = (Ok a, emit [FindAll "li" "cl-static-search-result"] s))
  /\ (forall b,
        find_all soup "li" "cl-static-search-result" = Ok [] ->
        find_all soup "div" "result-row" = Ok b -> b <> [] ->
        find_listings soup s
        = (Ok b, emit [FindAll "li" "cl-static-search-result";
                       FindAll "div" "result-row"] s))
  /\ (find_all soup "li" "cl-static-search-result" = Ok [] ->
      find_all soup "div" "result-row" = Ok [] ->
      find_listings soup s
      = (find_all soup "div" "cl-search-result",
         emit [FindAll "li" "cl-static-search-result";
               FindAll "div" "result-row";
               FindAll "div" "cl-search-result"] s)).
Proof.
  unfold find_listings, or_, bind, ret. rewrite !soup_find_all_spec.
  split_and!.
  - intros a -> Ha. by destruct a.
  - intros b -> Hb Hne. rewrite soup_find_all_spec, Hb, emit_emit.
    by destruct b.
  - intros -> Hb. rewrite soup_find_all_spec, Hb, soup_find_all_spec.
    by rewrite !emit_emit.
Qed.
End ExtractionClaims.

Lemma startswith_http rest : startswith ("http" +:+ rest) "http" = true.
Proof. unfold startswith. simpl. by destruct rest. Qed.

Section FieldClaims.
Context {Tag : Type} `{Bs4 Tag}.

Lemma listing_record_fields url (listing : Tag) title price location bedrooms
    link :
  text_or_NA listing "div" "title" = Ok title ->
  text_or_NA listing "div" "price" = Ok price ->
  text_or_NA listing "div" "location" = Ok location ->
  bedrooms_of listing = Ok bedrooms ->
  link_of url listing = Ok link ->
  listing_record url listing
  = Ok [("Title", VStr title); ("Price", VStr price);
        ("Location", VStr location); ("Bedrooms", VStr bedrooms);
        ("Link", link)].
Proof. unfold listing_record. by intros -> -> -> -> ->. Qed.

Lemma listing_record_link url (listing : Tag) r :
  listing_record url listing = Ok r ->
  exists link, link_of url listing = Ok link /\ get r "Link" = Some link.
Proof.
  unfold listing_record, rbind. intros E.
  repeat match type of E with
         | match ?x with _ => _ end = _ => destruct x; [|discriminate]
         end.
  injection E as <-. by eexists.
Qed.

Lemma text_or_NA_field (listing : Tag) name c x :
  find listing name c = Ok x -> text_or_NA listing name c = field_text x.
Proof.
  intros E. unfold text_or_NA, field_text, rbind. rewrite E.
  by destruct x.
Qed.

Lemma bedrooms_of_field (listing : Tag) oh ob :
  find listing "span" "housing" = Ok oh ->
  (oh = None -> find listing "span" "bedrooms" = Ok ob) ->
  bedrooms_of listing
  = field_text (match oh with Some t => Some t | None => ob end).
Proof.
  intros E1 E2. unfold bedrooms_of, field_text, rbind. rewrite E1.
  destruct oh as [t|]; [done|]. by rewrite (E2 eq_refl).
Qed.

(** C3, as the code has it.  A listing without the element of a field still
    gives a record: Title, Price and Location are ["N/A"] when their [div]
    is absent and the stripped text of the [div] when it is there; Bedrooms
    is the text of the [span] of class [housing] when there is one, else of
    the [span] of class [bedrooms], else ["N/A"]; Link is [None] (not
    ["N/A"]) when no anchor has an [href].  The absence of one element
    leaves the other fields as they are: whatever elements the listing has
    or lacks, the record holds for each text field the stripped text of its
    element or the sentinel. *)
Theorem absent_field_defaults url (listing : Tag) :
  (forall name c,
      find listing name c = Ok None -> text_or_NA listing name c = Ok NA)
  /\ (forall name c t,
        find listing name c = Ok (Some t) ->
        text_or_NA listing name c = rbind (text t) (fun s => Ok (strip s)))
  /\ (forall ot op ol oh ob title price location bedrooms link,
        find listing "div" "title" = Ok ot ->
        find listing "div" "price" = Ok op ->
        find listing "div" "location" = Ok ol ->
        find listing "span" "housing" = Ok oh ->
        (oh = None -> find listing "span" "bedrooms" = Ok ob) ->
        field_text ot = Ok title ->
        field_text op = Ok price ->
        field_text ol = Ok location ->
        field_text (match oh with Some t => Some t | None => ob end)
        = Ok bedrooms ->
        link_of url listing = Ok link ->
        listing_record url listing
        = Ok [("Title", VStr title); ("Price", VStr price);
              ("Location", VStr location); ("Bedrooms", VStr bedrooms);
              ("Link", link)])
  /\ (forall t,
        find listing "span" "housing" = Ok (Some t) ->
        bedrooms_of listing = rbind (text t) (fun s => Ok (strip s)))
  /\ (forall t,
        find listing "span" "housing" = Ok None ->
        find listing "span" "bedrooms" = Ok (Some t) ->
        bedrooms_of listing = rbind (text t) (fun s => Ok (strip s)))
  /\ (find listing "span" "housing" = Ok None ->
      find listing "span" "bedrooms" = Ok None ->
      bedrooms_of listing = Ok NA)
  /\ (find_attr listing "a" "href" = Ok None ->
      link_of url listing = Ok VNone)
  /\ (forall title price location bedrooms link,
        text_or_NA listing "div" "title" = Ok title ->
        text_or_NA listing "div" "price" = Ok price ->
        text_or_NA listing "div" "location" = Ok location ->
        bedrooms_of listing = Ok bedrooms ->
        link_of url listing = Ok link ->
        listing_record url listing
        = Ok [("Title", VStr title); ("Price", VStr price);
              ("Location", VStr location); ("Bedrooms", VStr bedrooms);
              ("Link", link)]).
Proof.
  split_and!.
  - intros name c E. unfold text_or_NA. by rewrite E.
  - intros name c t E. by rewrite (text_or_NA_field listing name c _ E).
  - intros ot op ol oh ob title price location bedrooms link
      Et Ep El Eh Eb Ht Hp Hl Hb Hlink.
    apply listing_record_fields; [| | | |done].
    + by rewrite (text_or_NA_field listing _ _ _ Et).
    + by rewrite (text_or_NA_field listing _ _ _ Ep).
    + by rewrite (text_or_NA_field listing _ _ _ El).
    + by rewrite (bedrooms_of_field listing oh ob Eh Eb).
  - intros t E. unfold bedrooms_of. by rewrite E.
  - intros t E1 E2. unfold bedrooms_of. rewrite E1. simpl. by rewrite E2.
  - intros E1 E2. unfold bedrooms_of. rewrite E1. simpl. by rewrite E2.
  - intros E. unfold link_of. by rewrite E.
  - apply listing_record_fields.
Qed.

(** C4.  When the first anchor with an [href] has one that does not start
    with ["http"], the Link of the record is the page URL followed by the
    [href], character for character. *)
Theorem relative_link_is_concatenated url (listing a : Tag) href r :
  find_attr listing "a" "href" = Ok (Some a) ->
  getitem a "href" = Ok (AttrStr href) ->
  startswith href "http" = false ->
  listing_record url listing = Ok r ->
  link_of url listing = Ok (VStr (url +:+ href))
  /\ get r "Link" = Some (VStr (url +:+ href)).
Proof.
  intros Ha Hhref Hrel Hr.
  assert (link_of url listing = Ok (VStr (url +:+ href))) as Hlink.
  { unfold link_of. rewrite Ha. simpl. rewrite Hhref. simpl. by rewrite Hrel. }
  split; [done|].
  destruct (listing_record_link url listing r Hr) as (link & E & Hget).
  congruence.
Qed.

(** C10.  The test for an absolute link is the prefix test on the four
    characters ["http"]: any [href] of the form ["http" ++ rest] is kept as
    it is, whatever [rest] is; and a listing without an anchor carrying an
    [href] has [None], not ["N/A"], as its Link. *)
Theorem http_prefix_keeps_href url (listing : Tag) r :
  listing_record url listing = Ok r ->
  (forall a rest,
      find_attr listing "a" "href" = Ok (Some a) ->
      getitem a "href" = Ok (AttrStr ("http" +:+ rest)) ->
      get r "Link" = Some (VStr ("http" +:+ rest)))
  /\ (find_attr listing "a" "href" = Ok None ->
      get r "Link" = Some VNone /\ get r "Link" <> Some (VStr NA)).
Proof.
  intros Hr.
  destruct (listing_record_link url listing r Hr) as (link & E & Hget).
  split.
  - intros a rest Ha Hhref. unfold link_of, rbind in E.
    rewrite Ha, Hhref, startswith_http in E. simpl in E. congruence.
  - intros Ha. unfold link_of in E. rewrite Ha in E. simpl in E.
    assert (link = VNone) as -> by congruence. by rewrite Hget.
Qed.
End FieldClaims.

(** ** Properties of the retried call *)

Section RetryClaims.
Context {Tag : Type} `{Bs4 Tag}.
Variable W : World.

Lemma body_state url s r s1 :
  scrape_properties_body W url s = (r, s1) ->
  exists a, s1 = emit a s /\ attempt_calls url a.
Proof.
  intros E. destruct (body_calls W url s) as (a & Ea & Ha).
  rewrite E in Ea. by exists a.
Qed.

Lemma body_Ok_keys url s props s1 :
  scrape_properties_body W url s = (Ok props, s1) ->
  Forall (fun r => keys r = record_keys) props.
Proof.
  intros E.
  destruct (body_cases W url s) as [(e & evs & E' & _)|(l & evs & E' & _)];
    rewrite E in E'; [discriminate|].
  injection E' as -> _. apply records_keys.
Qed.

Lemma scrape_properties_Ok_keys url s props s' :
  scrape_properties W url s = (Ok props, s') ->
  Forall (fun r => keys r = record_keys) props.
Proof.
  rewrite scrape_properties_unfold.
  destruct (scrape_properties_body W url s) as [[p1|e1] s1] eqn:E1.
  { intros [= <- _]. by eapply body_Ok_keys. }
  destruct (scrape_properties_body W url (emit [Sleep 2] s1))
    as [[p2|e2] s2] eqn:E2.
  { intros [= <- _]. by eapply body_Ok_keys. }
  destruct (scrape_properties_body W url (emit [Sleep 2] s2))
    as [[p3|e3] s3] eqn:E3; [|discriminate].
  intros [= <- _]. by eapply body_Ok_keys.
Qed.

Lemma three_attempts_counts url s r1 s1 r2 s2 r3 s3 :
  scrape_properties_body W url s = (r1, s1) ->
  scrape_properties_body W url (emit [Sleep 2] s1) = (r2, s2) ->
  scrape_properties_body W url (emit [Sleep 2] s2) = (r3, s3) ->
  count is_Get (since s s3) = 3 /\ count is_Sleep (since s s3) = 2.
Proof.
  intros (a1 & -> & H1)%body_state (a2 & -> & H2)%body_state
         (a3 & -> & H3)%body_state.
  rewrite !emit_emit, since_emit, !count_app.
  destruct (attempt_calls_counts url a1 H1) as (-> & -> & _).
  destruct (attempt_calls_counts url a2 H2) as (-> & -> & _).
  by destruct (attempt_calls_counts url a3 H3) as (-> & -> & _).
Qed.

(** C5, as the code has it.  The call makes one to three attempts, each one
    request followed by quiet calls, with a sleep of 2 between neighbours
    and nothing else, whatever the failures are.  When the first two
    attempts fail and the third succeeds, the call returns the result of
    the third after exactly two sleeps and raises nothing.  When all three
    fail, the call raises tenacity's [RetryError] holding the failure of
    the third attempt (the failure is not raised as it is). *)
Theorem three_attempts_two_waits url s :
  (exists attempts,
      snd (scrape_properties W url s) = emit (interleave [Sleep 2] attempts) s
      /\ 1 <= length attempts <= 3
      /\ Forall (attempt_calls url) attempts
      /\ count is_Get (interleave [Sleep 2] attempts) = length attempts
      /\ count is_Sleep (interleave [Sleep 2] attempts) = length attempts - 1)
  /\ (forall e1 s1 e2 s2 props s3,
        scrape_properties_body W url s = (Raise e1, s1) ->
        scrape_properties_body W url (emit [Sleep 2] s1) = (Raise e2, s2) ->
        scrape_properties_body W url (emit [Sleep 2] s2) = (Ok props, s3) ->
        scrape_properties W url s = (Ok props, s3)
        /\ count is_Get (since s s3) = 3
        /\ count is_Sleep (since s s3) = 2)
  /\ (forall e1 s1 e2 s2 e3 s3,
        scrape_properties_body W url s = (Raise e1, s1) ->
        scrape_properties_body W url (emit [Sleep 2] s1) = (Raise e2, s2) ->
        scrape_properties_body W url (emit [Sleep 2] s2) = (Raise e3, s3) ->
        scrape_properties W url s = (Raise (RetryError e3), s3)
        /\ count is_Get (since s s3) = 3
        /\ count is_Sleep (since s s3) = 2).
Proof.
  split_and!.
  - destruct (scrape_properties_calls W url s) as (att & E & Hlen & Hatt).
    destruct (interleave_counts url att Hatt) as (Hg & Hs & _).
    exists att. split_and!; first [done|lia].
  - intros e1 s1 e2 s2 props s3 E1 E2 E3.
    rewrite scrape_properties_unfold, E1, E2, E3.
    split; [done|]. by eapply three_attempts_counts.
  - intros e1 s1 e2 s2 e3 s3 E1 E2 E3.
    rewrite scrape_properties_unfold, E1, E2, E3.
    split; [done|]. by eapply three_attempts_counts.
Qed.

(** C8.  Every record the call returns has exactly the keys Title, Price,
    Location, Bedrooms, Link, in this order.  When the attempt goes through,
    the result is the list of the records of the listings, node by node:
    if no node fails, record [i] is the record of listing [i], so that the
    order of the nodes is kept and nothing is merged or sorted.  In a tree,
    the nodes a selector finds are in document order. *)
Theorem records_in_document_order url s :
  (forall props s',
      scrape_properties W url s = (Ok props, s') ->
      Forall (fun r => keys r = record_keys) props)
  /\ (forall response (soup : Tag) listings,
        get_outcome W (gets s) url = Ok response ->
        raise_for_status response = Ok tt ->
        BeautifulSoup (resp_text response) = Ok soup ->
        listings_value soup = Ok listings ->
        fst (scrape_properties W url s) = Ok (records url listings))
  /\ (forall listings : list Tag,
        Forall (fun n => exists r, listing_record url n = Ok r) listings ->
        length (records url listings) = length listings
        /\ forall i n,
             listings !! i = Some n ->
             exists r,
               records url listings !! i = Some r
               /\ listing_record url n = Ok r)
  /\ (forall (t : tag) name c,
        sublist (tree_find_all t name c) (descendants t)).
Proof.
  split_and!.
  - apply scrape_properties_Ok_keys.
  - intros response soup listings Hget Hstatus Hsoup Hlist.
    destruct (body_ok W url s response soup _ Hget Hstatus Hsoup Hlist)
      as (evs & E & _).
    by rewrite scrape_properties_unfold, E.
  - induction 1 as [|n l (r & Hr) Hl (IHlen & IHnth)]; [split; [done|]|].
    { intros i n Hi. by rewrite lookup_nil in Hi. }
    rewrite (records_cons_Ok url n l r Hr). split; [simpl; by rewrite IHlen|].
    intros [|i] m Hm.
    + injection Hm as <-. by exists r.
    + apply (IHnth i m Hm).
  - intros t name c. unfold tree_find_all.
    induction (descendants t) as [|d l IH]; simpl; [constructor|].
    destruct (_ && _); by constructor.
Qed.

(** C9, as the code has it.  The decorator wraps the whole function, so any
    exception that leaves an attempt is retried, a failure after a served
    request included: when the request is answered with a good status and
    the attempt still raises (a parse error does that), a sleep of 2 and a
    second request follow.  An attempt that returns, whatever its nodes did,
    is not repeated.  No sink is retried: each sink function makes its
    outside call at most once, and [main] writes at most one file, posts at
    most one message and sends no mail. *)
Theorem retry_wraps_the_whole_call url s :
  (forall response e s1,
      get_outcome W (gets s) url = Ok response ->
      raise_for_status response = Ok tt ->
      scrape_properties_body W url s = (Raise e, s1) ->
      exists a1 rest,
        snd (scrape_properties W url s)
        = emit (a1 ++ Sleep 2 :: Get url headers :: rest) s
        /\ attempt_calls url a1)
  /\ (forall response e,
        get_outcome W (gets s) url = Ok response ->
        raise_for_status response = Ok tt ->
        BeautifulSoup (resp_text response) = Raise e ->
        fst (scrape_properties_body W url s) = Raise e)
  /\ (forall props s1,
        scrape_properties_body W url s = (Ok props, s1) ->
        scrape_properties W url s = (Ok props, s1)
        /\ count is_Get (since s s1) = 1
        /\ count is_Sleep (since s s1) = 0)
  /\ (forall data filename,
        count is_ToCsv (since s (snd (save_to_csv W data filename s))) = 1)
  /\ (forall data,
        count is_Post (since s (snd (send_telegram_alert W data s))) <= 1)
  /\ (forall data,
        count is_SendMail (since s (snd (send_email W data s))) <= 1)
  /\ (count is_ToCsv (since s (snd (main W s))) <= 1
      /\ count is_Post (since s (snd (main W s))) <= 1
      /\ count is_SendMail (since s (snd (main W s))) = 0).
Proof.
  split_and!.
  - intros response e s1 _ _ E1.
    rewrite scrape_properties_unfold, E1.
    apply body_state in E1 as (a1 & -> & H1). exists a1.
    destruct (scrape_properties_body W url (emit [Sleep 2] (emit a1 s)))
      as [r2 s2] eqn:E2.
    apply body_state in E2 as (a2 & -> & (q2 & -> & _)).
    destruct r2 as [props|e2].
    { exists q2. simpl. rewrite !emit_emit, <- ?app_assoc. by simpl. }
    destruct (scrape_properties_body W url
                (emit [Sleep 2] (emit (Get url headers :: q2)
                                   (emit [Sleep 2] (emit a1 s)))))
      as [r3 s3] eqn:E3.
    apply body_state in E3 as (a3 & -> & _).
    exists (q2 ++ Sleep 2 :: a3).
    destruct r3; simpl; rewrite !emit_emit, <- ?app_assoc; by simpl.
  - intros response e Hget Hstatus Hsoup.
    unfold scrape_properties_body, try_except, bind, requests_get, lift, log,
      raise, call.
    by rewrite Hget, Hstatus, Hsoup.
  - intros props s1 E1. rewrite scrape_properties_unfold, E1.
    apply body_state in E1 as (a1 & -> & H1). rewrite since_emit.
    by destruct (attempt_calls_counts url a1 H1) as (-> & -> & _).
  - intros data filename.
    destruct (save_to_csv_calls W data filename s) as (rest & E & Hq).
    rewrite (since_calls _ _ _ E). simpl.
    by rewrite (count_none is_ToCsv quiet); auto with quiet.
  - intros data.
    destruct (send_telegram_alert_calls W data s)
      as (evs & -> & [->|(u & j & rest & -> & Hq)]);
      rewrite since_emit; simpl; [lia|].
    by rewrite (count_none is_Post quiet); auto with quiet.
  - intros data.
    destruct (send_email_calls W data s) as (evs & -> & Hle & _).
    by rewrite since_emit.
  - destruct (main_calls W s) as (evs & E & H1 & H2 & H3).
    by rewrite (since_calls _ _ _ E).
  - destruct (main_calls W s) as (evs & E & H1 & H2 & H3).
    by rewrite (since_calls _ _ _ E).
  - destruct (main_calls W s) as (evs & E & H1 & H2 & H3).
    by rewrite (since_calls _ _ _ E).
Qed.

(** C6.  When the call returns no record, [main] ends normally after
    logging one warning: no file is written, nothing is posted and no mail
    is sent.  Called with an empty list, the chat sink posts the fixed
    message that no properties were found. *)
Theorem no_records_no_sinks s :
  (forall s1,
      scrape_properties W target_url s = (Ok [], s1) ->
      main W s = (Ok tt, emit [Log WARNING [Lit "No properties scraped"]] s1)
      /\ files (snd (main W s)) = files s
      /\ count is_ToCsv (since s (snd (main W s))) = 0
      /\ count is_Post (since s (snd (main W s))) = 0
      /\ count is_SendMail (since s (snd (main W s))) = 0)
  /\ (exists r rest,
        send_telegram_alert W [] s
        = (r,
           emit
             (Post ("https://api.telegram.org/bot" +:+
                    format_env (telegram_token (CONFIG W)) +:+ "/sendMessage")
                {| chat_id := telegram_chat_id (CONFIG W);
                   payload_text := "⚠️ No properties found today";
                   parse_mode := "HTML";
                   disable_web_page_preview := true |} :: rest) s)
        /\ Forall (fun ev => quiet ev = true) rest).
Proof.
  split.
  - intros s1 E.
    assert (main W s
            = (Ok tt, emit [Log WARNING [Lit "No properties scraped"]] s1))
      as Emain.
    { unfold main, try_except, bind. by rewrite E. }
    rewrite Emain. split; [done|].
    destruct (scrape_properties_calls W target_url s) as (att & Es & _ & Hatt).
    destruct (interleave_counts _ _ Hatt) as (_ & _ & _ & Hns).
    rewrite E in Es. simpl in Es. subst s1. simpl.
    rewrite emit_emit, since_emit, !count_app. simpl.
    split; [done|].
    split_and!; rewrite (count_none _ no_sink); try done; by intros [].
  - unfold send_telegram_alert, try_except, bind, requests_post, lift, log,
      print, raise, call, record_call. simpl.
    match goal with
    | |- context [post_outcome W ?u ?j] =>
        destruct (post_outcome W u j) as [response|e]
    end.
    2: { rewrite emit_emit. do 2 eexists. split; [reflexivity|quiet_list]. }
    destruct (raise_for_status response) as [[]|e]; rewrite !emit_emit;
      (do 2 eexists; split; [reflexivity|quiet_list]).
Qed.
End RetryClaims.

(** ** Properties of the CSV sink *)

Lemma existsb_eqb_false (k : string) (cols : list string) :
  k ∉ cols -> existsb (String.eqb k) cols = false.
Proof.
  induction cols as [|c cols IH]; simpl; [done|].
  intros Hk. apply not_elem_of_cons in Hk as [Hne Hk].
  rewrite (IH Hk). by apply String.eqb_neq in Hne as ->.
Qed.

Lemma add_columns_fresh (ks cols : list string) :
  NoDup (cols ++ ks) ->
  fold_left
    (fun cols k => if existsb (String.eqb k) cols then cols else cols ++ [k])
    ks cols
  = cols ++ ks.
Proof.
  revert cols. induction ks as [|k ks IH]; intros cols Hnd; simpl.
  { by rewrite app_nil_r. }
  assert (k ∉ cols) as Hk.
  { apply NoDup_app in Hnd as (_ & Hdisj & _). intros Hin.
    apply (Hdisj k Hin). by left. }
  rewrite (existsb_eqb_false k cols Hk).
  rewrite IH; rewrite <- app_assoc; done.
Qed.

Lemma add_columns_record_keys (d : dict) :
  keys d = record_keys ->
  add_columns [] d = record_keys /\ add_columns record_keys d = record_keys.
Proof. intros E. unfold add_columns. rewrite E. by split. Qed.

Lemma columns_record_keys (data : list dict) :
  data <> [] ->
  Forall (fun d => keys d = record_keys) data ->
  columns data = record_keys.
Proof.
  destruct data as [|d data]; [done|]. intros _ Hall.
  apply Forall_cons in Hall as [Hd Hall]. unfold columns. simpl.
  rewrite (proj1 (add_columns_record_keys d Hd)).
  induction Hall as [|d' data Hd' _ IH]; simpl; [done|].
  by rewrite (proj2 (add_columns_record_keys d' Hd')).
Qed.

Local Abbreviation see :=
  (fun (cols : list string) (k : string) =>
     if existsb (String.eqb k) cols then cols else cols ++ [k]).

Lemma existsb_eqb_true (k : string) (cols : list string) :
  k ∈ cols -> existsb (String.eqb k) cols = true.
Proof.
  induction cols as [|c cols IH]; simpl; [by intros ?%elem_of_nil|].
  intros [->|Hk]%elem_of_cons; [by rewrite String.eqb_refl|].
  rewrite (IH Hk). by destruct (String.eqb k c).
Qed.

Lemma see_cases (k : string) (cols : list string) :
  (k ∈ cols /\ (see cols k) = cols)
  \/ ((k ∉ cols) /\ (see cols k) = cols ++ [k]).
Proof.
  destruct (decide (k ∈ cols)) as [Hin|Hout].
  - left. by rewrite (existsb_eqb_true k cols Hin).
  - right. by rewrite (existsb_eqb_false k cols Hout).
Qed.

Lemma columns_all_keys (data : list dict) (cols : list string) :
  fold_left add_columns data cols
  = fold_left see (concat (map keys data)) cols.
Proof.
  revert cols. induction data as [|d data IH]; intros cols; simpl; [done|].
  by rewrite fold_left_app, IH.
Qed.

Lemma seen_NoDup (l cols : list string) :
  NoDup cols -> NoDup (fold_left see l cols).
Proof.
  revert cols. induction l as [|k l IH]; intros cols Hnd; [done|].
  cbn [fold_left]. apply IH.
  destruct (see_cases k cols) as [[_ ->]|[Hout ->]]; [done|].
  apply NoDup_app. split_and!; [done| |apply NoDup_singleton].
  intros x Hx ->%list_elem_of_singleton. done.
Qed.

Lemma seen_elem_of (l cols : list string) (x : string) :
  x ∈ fold_left see l cols <-> x ∈ cols \/ x ∈ l.
Proof.
  revert cols. induction l as [|k l IH]; intros cols.
  { simpl. split; [by left|]. by intros [?|?%elem_of_nil]. }
  cbn [fold_left]. rewrite IH, elem_of_cons.
  destruct (see_cases k cols) as [[Hin ->]|[Hout ->]].
  - split; [tauto|]. intros [?|[->|?]]; tauto.
  - rewrite elem_of_app, list_elem_of_singleton. tauto.
Qed.

Lemma seen_prefix (l cols : list string) :
  exists ext, fold_left see l cols = cols ++ ext.
Proof.
  revert cols. induction l as [|k l IH]; intros cols.
  { exists []. simpl. by rewrite app_nil_r. }
  cbn [fold_left].
  destruct (see_cases k cols) as [[_ ->]|[_ ->]]; [apply IH|].
  destruct (IH (cols ++ [k])) as (ext & ->).
  exists (k :: ext). by rewrite <- app_assoc.
Qed.

(** Of two columns, the left one is an older column or a key met before the
    right one was first met. *)
Lemma seen_order (l cols : list string) i j k1 k2 :
  NoDup cols ->
  fold_left see l cols !! i = Some k1 ->
  fold_left see l cols !! j = Some k2 ->
  i < j ->
  k2 ∉ cols ->
  k1 ∈ cols \/ exists n, l !! n = Some k1 /\ k2 ∉ take n l.
Proof.
  revert cols. induction l as [|k l IH]; intros cols Hnd Hi Hj Hlt Hnew.
  { simpl in Hj. by apply list_elem_of_lookup_2 in Hj. }
  cbn [fold_left] in Hi, Hj.
  destruct (see_cases k cols) as [[Hin E]|[Hout E]]; rewrite E in Hi, Hj.
  - destruct (IH cols Hnd Hi Hj Hlt Hnew) as [?|(n & Hn & Hnot)]; [by left|].
    right. exists (S n). split; [done|]. cbn [take].
    apply not_elem_of_cons. split; [congruence|done].
  - assert (NoDup (cols ++ [k])) as Hnd'.
    { apply NoDup_app. split_and!; [done| |apply NoDup_singleton].
      intros x Hx ->%list_elem_of_singleton. done. }
    destruct (decide (k2 = k)) as [->|Hne].
    + left. destruct (seen_prefix l (cols ++ [k])) as (ext & Eext).
      pose proof (seen_NoDup l (cols ++ [k]) Hnd') as Hres.
      assert (fold_left see l (cols ++ [k]) !! length cols = Some k) as Hk.
      { rewrite Eext, <- app_assoc. cbn [app]. by apply list_lookup_middle. }
      assert (j = length cols) as -> by (by eapply NoDup_lookup).
      rewrite Eext, <- app_assoc, lookup_app_l in Hi by lia.
      by eapply list_elem_of_lookup_2.
    + assert (k2 ∉ cols ++ [k]) as Hnew'.
      { apply not_elem_of_app. split; [done|].
        by intros ?%list_elem_of_singleton. }
      destruct (IH (cols ++ [k]) Hnd' Hi Hj Hlt Hnew')
        as [[?|Hk1%list_elem_of_singleton]%elem_of_app|(n & Hn & Hnot)].
      * by left.
      * subst k1. right. exists 0. split; [done|]. cbn [take]. apply not_elem_of_nil.
      * right. exists (S n). split; [done|]. cbn [take].
        apply not_elem_of_cons. by split.
Qed.

Lemma elem_of_all_keys (data : list dict) (k : string) :
  k ∈ concat (map keys data) <-> exists d, d ∈ data /\ k ∈ keys d.
Proof.
  induction data as [|d data IH]; simpl.
  { split; [by intros ?%elem_of_nil|]. by intros (d & ?%elem_of_nil & _). }
  rewrite elem_of_app, IH. split.
  - intros [Hk|(d' & Hd' & Hk)].
    + exists d. split; [by left|done].
    + exists d'. split; [by right|done].
  - intros (d' & [->|Hd']%elem_of_cons & Hk); [by left|right; by exists d'].
Qed.

(** C7, as the code has it.  The sink fixes no column order: the header of
    the written file lists the keys of the input dicts in the order in which
    they first appear (for one dict, its insertion order).  That is: no
    column is listed twice, the columns are exactly the keys that some dict
    has, and of two columns the left one is a key met, going through the
    dicts in order, before the right one is first met.  The records that
    [scrape_properties] returns are built with the keys Title, Price,
    Location, Bedrooms, Link in this order, so for them, and for any
    non-empty list of dicts with these keys in this order, the header is
    exactly that and each row holds the five cells in that order.  When
    the write goes through, the file at the path holds the new table whatever
    it held before, and no other file changes. *)
Theorem csv_columns_follow_key_order (W : World) data filename s :
  to_csv_outcome W filename = None ->
  (exists s',
      save_to_csv W data filename s = (Ok tt, s')
      /\ files s' !! filename = Some (DataFrame data)
      /\ (forall other, other <> filename ->
                        files s' !! other = files s !! other))
  /\ (forall d, NoDup (keys d) -> header (DataFrame [d]) = keys d)
  /\ NoDup (header (DataFrame data))
  /\ (forall k,
        k ∈ header (DataFrame data) <-> exists d, d ∈ data /\ k ∈ keys d)
  /\ (forall i j k1 k2,
        header (DataFrame data) !! i = Some k1 ->
        header (DataFrame data) !! j = Some k2 ->
        i < j ->
        exists n,
          concat (map keys data) !! n = Some k1
          /\ k2 ∉ take n (concat (map keys data)))
  /\ (data <> [] ->
      Forall (fun d => keys d = record_keys) data ->
      DataFrame data
      = {| header := record_keys;
           rows := map (fun d => map (cell d) record_keys) data |})
  /\ (forall (Tag : Type) (bs4 : Bs4 Tag) url s0 props s1,
        scrape_properties W url s0 = (Ok props, s1) ->
        props <> [] ->
        header (DataFrame props) = record_keys).
Proof.
  intros Hw. split_and!.
  - unfold save_to_csv, try_except, bind, to_csv, log, print, call,
      record_call. rewrite Hw. simpl.
    eexists. split; [reflexivity|]. simpl. split.
    + apply lookup_insert_eq.
    + intros other Hne. by apply lookup_insert_ne.
  - intros d Hnd. unfold DataFrame, columns, add_columns. simpl.
    by apply (add_columns_fresh (keys d) []).
  - simpl. unfold columns. rewrite columns_all_keys.
    apply seen_NoDup, NoDup_nil_2.
  - intros k. simpl. unfold columns.
    rewrite columns_all_keys, seen_elem_of, elem_of_all_keys.
    split; [by intros [?%elem_of_nil|?]|by right].
  - intros i j k1 k2. simpl. unfold columns. rewrite columns_all_keys.
    intros Hi Hj Hlt.
    destruct (seen_order _ [] i j k1 k2 (NoDup_nil_2) Hi Hj Hlt)
      as [?%elem_of_nil|?]; [apply not_elem_of_nil|done..].
  - intros Hne Hall. unfold DataFrame.
    by rewrite (columns_record_keys data Hne Hall).
  - intros Tag bs4 url s0 props s1 E Hne. simpl.
    apply (columns_record_keys props Hne).
    by eapply scrape_properties_Ok_keys.
Qed.

(** ** The properties at work on the sample pages *)

(** C1 on the sample page: the second of its four listings raises. *)
Lemma failing_listing_is_skipped_witness :
  listing_record target_url listing_odd
  = Raise (AttributeError "'list' object has no attribute 'startswith'")
  /\ exists s',
       scrape_properties online target_url start
       = (Ok (records target_url [listing_full]
              ++ records target_url [listing_bare; listing_httpfoo]), s')
       /\ Log WARNING
            [Lit "Error processing listing: ";
             StrOf (AttributeError
                      "'list' object has no attribute 'startswith'")]
          ∈ since start s'
       /\ count is_Get (since start s') = 1
       /\ count is_Sleep (since start s') = 0.
Proof.
  split; [reflexivity|].
  apply (failing_listing_is_skipped online target_url start
           (ok_response target_url "listings") page_listings
           [listing_full] listing_odd [listing_bare; listing_httpfoo]
           (AttributeError "'list' object has no attribute 'startswith'"));
    reflexivity.
Defined.

(** C2 on a page with both kinds of markup, on one with the older kinds
    only, and on one without listings. *)
Lemma first_nonempty_selector_wins_witness :
  find_listings page_listings start
  = (Ok [listing_full; listing_odd; listing_bare; listing_httpfoo],
     emit [FindAll "li" "cl-static-search-result"] start)
  /\ find_listings page_old start
     = (Ok [Element "div" (class_ "result-row") [div "title" "Ranch"];
            Element "div" (class_ "result-row") [div "title" "Silo"]],
        emit [FindAll "li" "cl-static-search-result";
              FindAll "div" "result-row"] start)
  /\ find_listings page_empty start
     = (Ok [],
        emit [FindAll "li" "cl-static-search-result";
              FindAll "div" "result-row";
              FindAll "div" "cl-search-result"] start).
Proof.
  split_and!.
  - apply (proj1 (first_nonempty_selector_wins page_listings start));
      [reflexivity|discriminate].
  - apply (proj1 (proj2 (first_nonempty_selector_wins page_old start)));
      [reflexivity|reflexivity|discriminate].
  - exact (proj2 (proj2 (first_nonempty_selector_wins page_empty start))
             eq_refl eq_refl).
Defined.

(** C3 does not hold for Link: a listing without an anchor gives a record
    whose Link is [None], not ["N/A"]. *)
Lemma absent_link_is_not_NA :
  find_attr listing_bare "a" "href" = Ok None
  /\ listing_record target_url listing_bare = Ok record_bare
  /\ ~ (exists r,
          listing_record target_url listing_bare = Ok r
          /\ get r "Link" = Some (VStr "N/A")).
Proof.
  split_and!; [reflexivity|reflexivity|].
  intros (r & Hr & Hlink). vm_compute in Hr. injection Hr as <-.
  vm_compute in Hlink. discriminate.
Qed.

(** C3, as the code has it: on a listing with a title and a price and
    nothing else, on the empty listing and on the complete one. *)
Lemma absent_field_defaults_witness :
  listing_record target_url listing_nolink = Ok record_nolink
  /\ listing_record target_url listing_bare = Ok record_bare
  /\ bedrooms_of listing_full = Ok "2br - 900ft2".
Proof.
  destruct (absent_field_defaults target_url listing_nolink)
    as (_ & _ & Hdom & _ & _ & _ & Hnolink & _).
  destruct (absent_field_defaults target_url listing_bare)
    as (Hfield & _ & _ & _ & _ & Hbed & Hlink & Hrecord).
  destruct (absent_field_defaults target_url listing_full)
    as (_ & _ & _ & Hhousing & _).
  split_and!.
  - apply (Hdom
             (Some (Element "div" (class_ "title") [NavigableString " Shed "]))
             (Some (Element "div" (class_ "price") [NavigableString "$50"]))
             None None None);
      [reflexivity|reflexivity|reflexivity|reflexivity|reflexivity
      |reflexivity|reflexivity|reflexivity|reflexivity|].
    apply Hnolink. reflexivity.
  - apply Hrecord; [apply Hfield..|apply Hbed|apply Hlink]; reflexivity.
  - apply (Hhousing
             (Element "span" (class_ "housing")
                [NavigableString " 2br - 900ft2 "])).
    reflexivity.
Defined.

(** C4 on the example of the specification. *)
Lemma relative_link_is_concatenated_witness :
  startswith "/post/123" "http" = false
  /\ listing_record "https://dallas.craigslist.org/search/rea" listing_full
     = Ok record_full
  /\ link_of "https://dallas.craigslist.org/search/rea" listing_full
     = Ok (VStr "https://dallas.craigslist.org/search/rea/post/123")
  /\ get record_full "Link"
     = Some (VStr "https://dallas.craigslist.org/search/rea/post/123").
Proof.
  split; [reflexivity|]. split; [reflexivity|].
  exact (relative_link_is_concatenated
           "https://dallas.craigslist.org/search/rea" listing_full
           anchor_full "/post/123" record_full
           eq_refl eq_refl eq_refl eq_refl).
Defined.

(** C5 does not hold when no request is served: the three attempts fail
    with a connection error, and what the caller gets is not that error but
    a [RetryError] holding it. *)
Lemma exhausted_retry_raises_RetryError :
  exists s1 s2 s3,
    scrape_properties_body down target_url start = (Raise refused, s1)
    /\ scrape_properties_body down target_url (emit [Sleep 2] s1)
       = (Raise refused, s2)
    /\ scrape_properties_body down target_url (emit [Sleep 2] s2)
       = (Raise refused, s3)
    /\ fst (scrape_properties down target_url start)
       = Raise (RetryError refused)
    /\ fst (scrape_properties down target_url start) <> Raise refused.
Proof.
  do 3 eexists. split_and!; [reflexivity..|].
  vm_compute. discriminate.
Qed.

(** C5, as the code has it, when the third request is the first to be
    served and when none is. *)
Lemma three_attempts_two_waits_witness :
  (fst (scrape_properties flaky target_url start)
   = Ok [record_full; record_bare; record_httpfoo]
   /\ count is_Get (calls (snd (scrape_properties flaky target_url start))) = 3
   /\ count is_Sleep (calls (snd (scrape_properties flaky target_url start)))
      = 2)
  /\ fst (scrape_properties down target_url start) = Raise (RetryError refused).
Proof.
  destruct (three_attempts_two_waits flaky target_url start)
    as (_ & Hflaky & _).
  destruct (three_attempts_two_waits down target_url start) as (_ & _ & Hdown).
  split.
  - edestruct Hflaky as (E & Hg & Hs); [reflexivity..|].
    rewrite E. split; [reflexivity|]. split; [exact Hg|exact Hs].
  - edestruct Hdown as (E & _); [reflexivity..|]. by rewrite E.
Defined.

(** C6 on a page without listings. *)
Lemma no_records_no_sinks_witness :
  fst (scrape_properties quiet_day target_url start) = Ok []
  /\ fst (main quiet_day start) = Ok tt
  /\ last (calls (snd (main quiet_day start)))
     = Some (Log WARNING [Lit "No properties scraped"])
  /\ files (snd (main quiet_day start)) = files start
  /\ count is_ToCsv (since start (snd (main quiet_day start))) = 0
  /\ count is_Post (since start (snd (main quiet_day start))) = 0
  /\ count is_SendMail (since start (snd (main quiet_day start))) = 0.
Proof.
  split; [reflexivity|].
  destruct (proj1 (no_records_no_sinks quiet_day start)
              (snd (scrape_properties quiet_day target_url start)))
    as (E & Hfiles & Hcsv & Hpost & Hmail); [reflexivity|].
  rewrite E. split; [reflexivity|]. split; [reflexivity|].
  rewrite <- E. by split_and!.
Defined.

(** C7 does not hold for dicts whose keys were inserted in another order:
    the header follows them. *)
Lemma csv_header_follows_shuffled_keys :
  exists s',
    save_to_csv online shuffled "properties.csv" start = (Ok tt, s')
    /\ files s' !! "properties.csv"
       = Some {| header := ["Price"; "Title"; "Link"; "Bedrooms"; "Location"];
                 rows := [["$900"; "Flat"; EmptyString; "1br"; "Plano"]] |}
    /\ ["Price"; "Title"; "Link"; "Bedrooms"; "Location"] <> record_keys.
Proof.
  eexists. split; [reflexivity|]. split; [|discriminate].
  simpl. apply lookup_insert_eq.
Qed.

(** C7, as the code has it: the records of the sample page replace an older
    file; and dicts with different keys give the columns a, b, c, d, the
    second dict adding its new keys after those of the first. *)
Lemma csv_columns_follow_key_order_witness :
  files stale !! "properties.csv"
  = Some {| header := ["Old"]; rows := [["row"]] |}
  /\ header (DataFrame ragged) = ["a"; "b"; "c"; "d"]
  /\ "d" ∈ header (DataFrame ragged)
  /\ (exists n,
        concat (map keys ragged) !! n = Some "b"
        /\ "c" ∉ take n (concat (map keys ragged)))
  /\ exists s',
       save_to_csv online [record_full; record_bare; record_httpfoo]
         "properties.csv" stale
       = (Ok tt, s')
       /\ files s' !! "properties.csv"
          = Some {| header := ["Title"; "Price"; "Location"; "Bedrooms"; "Link"];
                    rows :=
                      [["Cozy bungalow"; "$1,200"; "Oak Cliff"; "2br - 900ft2";
                        "https://dallas.craigslist.org/search/rea/post/123"];
                       ["N/A"; "N/A"; "N/A"; "N/A"; EmptyString];
                       ["Loft"; "N/A"; "N/A"; "N/A"; "httpfoo"]] |}.
Proof.
  split; [apply lookup_singleton_eq|].
  split; [reflexivity|].
  destruct (csv_columns_follow_key_order online ragged "properties.csv"
              stale eq_refl)
    as (_ & _ & _ & Hmem & Horder & _).
  split.
  { apply Hmem. exists [("c", VStr "3"); ("a", VStr "4"); ("d", VNone)].
    split; [unfold ragged; by right; left|].
    simpl. by do 2 right; left. }
  split; [apply (Horder 1 2 "b" "c"); [reflexivity|reflexivity|lia]|].
  destruct (csv_columns_follow_key_order online
              [record_full; record_bare; record_httpfoo] "properties.csv"
              stale eq_refl)
    as ((s' & E & Hfile & _) & _ & _ & _ & _ & Hframe & _).
  exists s'. split; [exact E|]. rewrite Hfile, Hframe; [reflexivity|discriminate|].
  repeat (apply Forall_cons_2; [reflexivity|]). apply Forall_nil_2.
Defined.

(** C8 on the sample page. *)
Lemma records_in_document_order_witness :
  fst (scrape_properties online target_url start)
  = Ok [record_full; record_bare; record_httpfoo]
  /\ Forall (fun r => keys r = record_keys)
       [record_full; record_bare; record_httpfoo].
Proof.
  destruct (records_in_document_order online target_url start)
    as (Hkeys & Hrecords & _).
  assert (fst (scrape_properties online target_url start)
          = Ok [record_full; record_bare; record_httpfoo]) as E.
  { exact (Hrecords (ok_response target_url "listings") page_listings
             [listing_full; listing_odd; listing_bare; listing_httpfoo]
             eq_refl eq_refl eq_refl eq_refl). }
  split; [exact E|].
  apply (Hkeys _ (snd (scrape_properties online target_url start))).
  rewrite <- E. by destruct (scrape_properties online target_url start).
Defined.

(** C9 does not hold when the served page does not parse: the request is
    answered with status 200, the parser raises, and the page is fetched
    three times with two sleeps in between. *)
Lemma parse_failure_is_retried :
  get_outcome garbled 0 target_url
  = Ok (ok_response target_url "<![ endif]>")
  /\ raise_for_status (ok_response target_url "<![ endif]>") = Ok tt
  /\ BeautifulSoup "<![ endif]>" = Raise rejected
  /\ count is_Get (calls (snd (scrape_properties garbled target_url start))) = 3
  /\ count is_Sleep (calls (snd (scrape_properties garbled target_url start)))
     = 2.
Proof. by split_and!. Qed.

(** C9, as the code has it, on the page that does not parse. *)
Lemma retry_wraps_the_whole_call_witness :
  fst (scrape_properties_body garbled target_url start) = Raise rejected
  /\ exists a1 rest,
       snd (scrape_properties garbled target_url start)
       = emit (a1 ++ Sleep 2 :: Get target_url headers :: rest) start
       /\ attempt_calls target_url a1.
Proof.
  destruct (retry_wraps_the_whole_call garbled target_url start)
    as (Hretry & Hparse & _).
  split.
  - exact (Hparse (ok_response target_url "<![ endif]>") rejected
             eq_refl eq_refl eq_refl).
  - exact (Hretry (ok_response target_url "<![ endif]>") rejected
             (snd (scrape_properties_body garbled target_url start))
             eq_refl eq_refl eq_refl).
Defined.

(** C10 on a link that starts with the four characters and is no URL, and on
    a listing without a link. *)
Lemma http_prefix_keeps_href_witness :
  get record_httpfoo "Link" = Some (VStr "httpfoo")
  /\ get record_bare "Link" = Some VNone
  /\ get record_bare "Link" <> Some (VStr NA).
Proof.
  destruct (http_prefix_keeps_href target_url listing_httpfoo record_httpfoo)
    as (Hhttp & _); [reflexivity|].
  destruct (http_prefix_keeps_href target_url listing_bare record_bare)
    as (_ & Hnone); [reflexivity|].
  split.
  - apply (Hhttp anchor_httpfoo "foo"); reflexivity.
  - apply Hnone. reflexivity.
Defined.

(** ** Further properties: the sinks *)

Section SinkOutcomes.
Variable W : World.

(** A record either has its five fields, and then formats, or the first
    missing one raises [KeyError]. *)
Lemma alert_entry_cases (prop : dict) :
  (exists entry, alert_entry prop = Ok entry
                 /\ Forall (fun k => is_Some (get prop k)) record_keys)
  \/ (exists k, k ∈ record_keys /\ get prop k = None
                /\ alert_entry prop = Raise (KeyError k)).
Proof.
  unfold alert_entry, subscript, rbind.
  destruct (get prop "Title") eqn:E1;
    [|right; exists "Title"; split_and!; [set_solver|done..]].
  destruct (get prop "Price") eqn:E2;
    [|right; exists "Price"; split_and!; [set_solver|done..]].
  destruct (get prop "Bedrooms") eqn:E3;
    [|right; exists "Bedrooms"; split_and!; [set_solver|done..]].
  destruct (get prop "Location") eqn:E4;
    [|right; exists "Location"; split_and!; [set_solver|done..]].
  destruct (get prop "Link") eqn:E5;
    [|right; exists "Link"; split_and!; [set_solver|done..]].
  left. eexists. split; [reflexivity|].
  unfold record_keys. rewrite !Forall_cons, E1, E2, E3, E4, E5.
  split_and!; by eauto.
Qed.

Lemma email_row_cases (prop : dict) :
  (exists row, email_row prop = Ok row
               /\ Forall (fun k => is_Some (get prop k)) record_keys)
  \/ (exists k, k ∈ record_keys /\ get prop k = None
                /\ email_row prop = Raise (KeyError k)).
Proof.
  unfold email_row, subscript, rbind.
  destruct (get prop "Link") eqn:E5;
    [|right; exists "Link"; split_and!; [set_solver|done..]].
  destruct (get prop "Title") eqn:E1;
    [|right; exists "Title"; split_and!; [set_solver|done..]].
  destruct (get prop "Price") eqn:E2;
    [|right; exists "Price"; split_and!; [set_solver|done..]].
  destruct (get prop "Bedrooms") eqn:E3;
    [|right; exists "Bedrooms"; split_and!; [set_solver|done..]].
  destruct (get prop "Location") eqn:E4;
    [|right; exists "Location"; split_and!; [set_solver|done..]].
  left. eexists. split; [reflexivity|].
  unfold record_keys. rewrite !Forall_cons, E1, E2, E3, E4, E5.
  split_and!; by eauto.
Qed.

Lemma alert_entries_missing props message prop k :
  prop ∈ props -> k ∈ record_keys -> get prop k = None ->
  exists k', k' ∈ record_keys
             /\ alert_entries props message = Raise (KeyError k').
Proof.
  intros Hin Hk Hget. revert message.
  induction props as [|p props IH]; intros message; [by apply elem_of_nil in Hin|].
  simpl. destruct (alert_entry_cases p)
    as [(entry & -> & Hall)|(k' & Hk' & _ & ->)]; [|by exists k'].
  simpl. apply elem_of_cons in Hin as [->|Hin]; [|by apply IH].
  rewrite Forall_forall in Hall. destruct (Hall k Hk) as [v Hv]. congruence.
Qed.

Lemma email_rows_missing props html prop k :
  prop ∈ props -> k ∈ record_keys -> get prop k = None ->
  exists k', k' ∈ record_keys /\ email_rows props html = Raise (KeyError k').
Proof.
  intros Hin Hk Hget. revert html.
  induction props as [|p props IH]; intros html; [by apply elem_of_nil in Hin|].
  simpl. destruct (email_row_cases p)
    as [(row & -> & Hall)|(k' & Hk' & _ & ->)]; [|by exists k'].
  simpl. apply elem_of_cons in Hin as [->|Hin]; [|by apply IH].
  rewrite Forall_forall in Hall. destruct (Hall k Hk) as [v Hv]. congruence.
Qed.

Lemma alert_entries_complete props message :
  Forall (fun prop => Forall (fun k => is_Some (get prop k)) record_keys) props ->
  exists text, alert_entries props message = Ok text.
Proof.
  intros Hall. revert message.
  induction Hall as [|p props Hp _ IH]; intros message; simpl; [by eexists|].
  destruct (alert_entry_cases p) as [(entry & -> & _)|(k & Hk & Hget & _)].
  - simpl. apply IH.
  - rewrite Forall_forall in Hp. destruct (Hp k Hk) as [v Hv]. congruence.
Qed.

Lemma email_rows_complete props html :
  Forall (fun prop => Forall (fun k => is_Some (get prop k)) record_keys) props ->
  exists html', email_rows props html = Ok html'.
Proof.
  intros Hall. revert html.
  induction Hall as [|p props Hp _ IH]; intros html; simpl; [by eexists|].
  destruct (email_row_cases p) as [(row & -> & _)|(k & Hk & Hget & _)].
  - simpl. apply IH.
  - rewrite Forall_forall in Hp. destruct (Hp k Hk) as [v Hv]. congruence.
Qed.

Lemma alert_message_take data : alert_message data = alert_message (take 5 data).
Proof.
  destruct data as [|d data]; [done|].
  change (take 5 (d :: data)) with (d :: take 4 data). unfold alert_message.
  change (d :: take 4 data) with (take 5 (d :: data)).
  by rewrite take_take.
Qed.

(** What [send_telegram_alert] does, case by case. *)
Lemma send_telegram_alert_outcome data s :
  let url := "https://api.telegram.org/bot" +:+
             format_env (telegram_token (CONFIG W)) +:+ "/sendMessage" in
  match alert_message data with
  | Raise e => send_telegram_alert W data s = (Raise e, s)
  | Ok message =>
      let json := {| chat_id := telegram_chat_id (CONFIG W);
                     payload_text := message;
                     parse_mode := "HTML";
                     disable_web_page_preview := true |} in
      match rbind (post_outcome W url json) raise_for_status with
      | Ok _ =>
          send_telegram_alert W data s
          = (Ok tt, emit [Post url json; Log INFO [Lit "Telegram alert sent"];
                          Print [Lit "Telegram alert sent"]] s)
      | Raise e =>
          send_telegram_alert W data s
          = (Raise e,
             emit [Post url json;
                   Log ERROR [Lit "Failed to send Telegram alert: "; StrOf e]]
               s)
      end
  end.
Proof.
  unfold send_telegram_alert, try_except, bind, requests_post, lift, log,
    print, raise, call, record_call.
  destruct (alert_message data) as [message|e]; simpl; [|done].
  match goal with
  | |- context [post_outcome W ?u ?j] =>
      destruct (post_outcome W u j) as [response|e]
  end; simpl; [|by rewrite emit_emit].
  destruct (raise_for_status response) as [[]|e]; by rewrite !emit_emit.
Qed.

Lemma save_to_csv_ok data filename s :
  to_csv_outcome W filename = None ->
  save_to_csv W data filename s
  = (Ok tt,
     {| calls := calls s ++
                 [ToCsv filename (DataFrame data);
                  Log INFO [Lit "Successfully saved "; Len (length data);
                            Lit " listings to "; Lit filename];
                  Print [Lit "Saved "; Len (length data);
                         Lit " properties to "; Lit filename]];
        files := <[filename := DataFrame data]> (files s) |}).
Proof.
  intros Hw. unfold save_to_csv, try_except, bind, to_csv, log, print, call,
    record_call, emit. rewrite Hw. simpl.
  by rewrite length_map, <- !app_assoc.
Qed.

Lemma save_to_csv_fail data filename s e :
  to_csv_outcome W filename = Some e ->
  save_to_csv W data filename s
  = (Raise e,
     emit [ToCsv filename (DataFrame data);
           Log ERROR [Lit "Failed to save CSV: "; StrOf e]] s).
Proof.
  intros Hw. unfold save_to_csv, try_except, bind, to_csv, log, raise, call,
    record_call. rewrite Hw. by rewrite emit_emit.
Qed.
End SinkOutcomes.

Section SinkProperties.
Variable W : World.

(** X1.  The chat alert reads the first five records only: what the rest
    of the list holds, well-formed or not, changes neither the result nor
    any call. *)
Theorem alert_reads_first_five data s :
  send_telegram_alert W data s = send_telegram_alert W (take 5 data) s.
Proof.
  unfold send_telegram_alert. by rewrite (alert_message_take data).
Qed.

(** X2.  The mail reads the first ten records only. *)
Theorem email_reads_first_ten data s :
  send_email W data s = send_email W (take 10 data) s.
Proof. unfold send_email. by rewrite take_take. Qed.

(** X3.  When one of the first five records lacks one of the five keys, the
    chat alert raises [KeyError] while the message is built, which is
    before the [try]: nothing is posted and nothing is logged. *)
Theorem alert_missing_key_raises_before_post data s prop k :
  prop ∈ take 5 data -> k ∈ record_keys -> get prop k = None ->
  exists k',
    k' ∈ record_keys
    /\ send_telegram_alert W data s = (Raise (KeyError k'), s).
Proof.
  intros Hin Hk Hget.
  assert (exists k', k' ∈ record_keys
                     /\ alert_message data = Raise (KeyError k'))
    as (k' & Hk' & E).
  { unfold alert_message. destruct data as [|d data];
      [by apply elem_of_nil in Hin|].
    by eapply alert_entries_missing. }
  exists k'. split; [done|].
  pose proof (send_telegram_alert_outcome W data s) as Hout.
  by rewrite E in Hout.
Qed.

(** X4.  In the mail sink the rows are built inside the [try]: a record
    among the first ten that lacks a key makes it log the [KeyError] as a
    failure to send and raise it again, and no mail is sent. *)
Theorem email_missing_key_is_logged data s prop k :
  prop ∈ take 10 data -> k ∈ record_keys -> get prop k = None ->
  exists k',
    k' ∈ record_keys
    /\ send_email W data s
       = (Raise (KeyError k'),
          emit [Log ERROR [Lit "Failed to send email: ";
                           StrOf (KeyError k')]] s).
Proof.
  intros Hin Hk Hget. unfold send_email, try_except, bind, lift.
  match goal with
  | |- context [email_rows ?d ?h] =>
      destruct (email_rows_missing d h prop k Hin Hk Hget) as (k' & Hk' & ->)
  end.
  by exists k'.
Qed.

(** X5.  Whenever the chat alert raises, either the message could not be
    built and no call was made, or exactly one POST was made and the same
    exception was logged as an error right after it; the line saying that
    the alert was sent is not logged. *)
Theorem failed_alert_is_logged data s e :
  fst (send_telegram_alert W data s) = Raise e ->
  (alert_message data = Raise e /\ snd (send_telegram_alert W data s) = s)
  \/ (exists url json,
         snd (send_telegram_alert W data s)
         = emit [Post url json;
                 Log ERROR [Lit "Failed to send Telegram alert: "; StrOf e]]
             s).
Proof.
  pose proof (send_telegram_alert_outcome W data s) as Hout. simpl in Hout.
  destruct (alert_message data) as [message|e'].
  - match type of Hout with
    | match ?r with _ => _ end => destruct r
    end; rewrite Hout; simpl; [discriminate|].
    intros [= ->]. right. by do 2 eexists.
  - rewrite Hout. simpl. intros [= ->]. by left.
Qed.



(** X8.  The mail sink has no guard on the list: when each of the first ten
    records has the five keys (an empty list included), it opens one SMTP
    session.  The mail is handed to [send_message] at most once, and exactly
    when connecting and logging in go through; a failure of either leaves
    before any mail is handed over. *)
Theorem email_is_always_attempted data s :
  Forall (fun prop => Forall (fun k => is_Some (get prop k)) record_keys)
    (take 10 data) ->
  exists html,
    email_rows (take 10 data) email_table_head = Ok html
    /\ count is_SmtpConnect (since s (snd (send_email W data s))) = 1
    /\ count is_SendMail (since s (snd (send_email W data s))) <= 1
    /\ (count is_SendMail (since s (snd (send_email W data s))) = 1
        <-> smtp_outcome W (email_message W html) Connecting = None
            /\ smtp_outcome W (email_message W html) LoggingIn = None).
Proof.
  intros Hall.
  destruct (email_rows_complete (take 10 data) email_table_head Hall)
    as (html & Ehtml).
  exists html. split; [done|].
  destruct (smtp_send_calls W (email_message W html) s)
    as (evs & r & E & Hconn & Hle & _ & _ & Hiff).
  unfold send_email, try_except, bind, lift, log, print, raise, call,
    record_call.
  rewrite Ehtml, E.
  destruct r as [[]|e]; cbn [snd]; rewrite !emit_emit, since_emit, !count_app;
    simpl; rewrite !Nat.add_0_r; by split_and!.
Qed.
End SinkProperties.

(** ** Further properties: extraction and the run as a whole *)


Lemma record_keys_get (r : dict) :
  keys r = record_keys ->
  Forall (fun k => is_Some (get r k)) record_keys.
Proof.
  unfold keys, record_keys. intros E.
  destruct r as [|[k1 v1] [|[k2 v2] [|[k3 v3] [|[k4 v4] [|[k5 v5] [|? ?]]]]]];
    try discriminate.
  simpl in E. injection E as -> -> -> -> ->.
  repeat (apply Forall_cons_2; [by eexists|]). apply Forall_nil_2.
Qed.

Section RunProperties.
Context {Tag : Type} `{Bs4 Tag}.
Variable W : World.

Lemma send_telegram_alert_result data s s' :
  fst (send_telegram_alert W data s) = fst (send_telegram_alert W data s').
Proof.
  pose proof (send_telegram_alert_outcome W data s) as H1.
  pose proof (send_telegram_alert_outcome W data s') as H2.
  simpl in H1, H2. destruct (alert_message data); [|by rewrite H1, H2].
  match type of H1 with
  | match ?r with _ => _ end => destruct r
  end; by rewrite H1, H2.
Qed.

Lemma send_telegram_alert_state data s :
  exists evs,
    snd (send_telegram_alert W data s) = emit evs s
    /\ count is_ToCsv evs = 0
    /\ (fst (send_telegram_alert W data s) = Ok tt -> count is_Post evs = 1).
Proof.
  pose proof (send_telegram_alert_outcome W data s) as H1. simpl in H1.
  destruct (alert_message data).
  - match type of H1 with
    | match ?r with _ => _ end => destruct r
    end; rewrite H1; by eexists.
  - rewrite H1. exists []. by rewrite emit_nil.
Qed.

(** X9.  The only exception [scrape_properties] lets out is tenacity's
    [RetryError], and only after three requests and two sleeps. *)
Theorem scrape_raises_only_RetryError url s e s' :
  scrape_properties W url s = (Raise e, s') ->
  exists e0,
    e = RetryError e0
    /\ count is_Get (since s s') = 3
    /\ count is_Sleep (since s s') = 2.
Proof.
  rewrite scrape_properties_unfold.
  destruct (scrape_properties_body W url s) as [[p1|e1] s1] eqn:E1;
    [discriminate|].
  destruct (scrape_properties_body W url (emit [Sleep 2] s1))
    as [[p2|e2] s2] eqn:E2; [discriminate|].
  destruct (scrape_properties_body W url (emit [Sleep 2] s2))
    as [[p3|e3] s3] eqn:E3; [discriminate|].
  intros [= <- <-]. exists e3. split; [done|].
  by eapply three_attempts_counts.
Qed.

(** X10.  Whatever exception leaves [main], the last thing [main] did was
    to log it as the failure of the script. *)
Theorem main_logs_what_it_raises s e :
  fst (main W s) = Raise e ->
  last (calls (snd (main W s)))
  = Some (Log ERROR [Lit "Script failed: "; StrOf e]).
Proof.
  unfold main, try_except.
  match goal with
  | |- context [bind ?m ?k s] => destruct (bind m k s) as [[[]|e'] s1]
  end; simpl; [discriminate|].
  intros [= ->]. apply last_snoc.
Qed.

(** X11.  When [main] ends normally, the call returned records; and unless
    it returned none, the output file could be written and holds the table
    of these records under the header Title, Price, Location, Bedrooms,
    Link, and exactly one file was written and one message posted. *)
Theorem main_success_means_sinks_done s :
  fst (main W s) = Ok tt ->
  exists props s1,
    scrape_properties W target_url s = (Ok props, s1)
    /\ (props = []
        \/ (to_csv_outcome W "properties.csv" = None
            /\ files (snd (main W s)) !! "properties.csv"
               = Some (DataFrame props)
            /\ header (DataFrame props) = record_keys
            /\ count is_ToCsv (since s (snd (main W s))) = 1
            /\ count is_Post (since s (snd (main W s))) = 1)).
Proof.
  unfold main, try_except, bind.
  destruct (scrape_properties_calls W target_url s) as (att & E0 & _ & Hatt).
  destruct (interleave_counts _ _ Hatt) as (_ & _ & _ & Hns).
  destruct (scrape_properties W target_url s) as [[props|e] s1] eqn:Es;
    [|discriminate].
  simpl in E0. intros Hmain. exists props, s1. split; [done|].
  destruct props as [|p props]; [by left|]. right.
  assert (Forall (fun r => keys r = record_keys) (p :: props)) as Hkeys.
  { by eapply (scrape_properties_Ok_keys W target_url s). }
  destruct (to_csv_outcome W "properties.csv") as [e|] eqn:Hw.
  { by rewrite (save_to_csv_fail W _ _ s1 e Hw) in Hmain. }
  rewrite (save_to_csv_ok W _ _ s1 Hw) in Hmain |- *.
  match type of Hmain with
  | context [send_telegram_alert W ?d ?s2] =>
      destruct (send_telegram_alert_state d s2) as (evs & Est & Hcsv & Hpost);
      destruct (send_telegram_alert W d s2) as [[[]|e] s3]
  end; [|discriminate].
  simpl in Est. subst s3. simpl. split_and!.
  - done.
  - apply lookup_insert_eq.
  - by apply columns_record_keys.
  - rewrite E0. unfold since. simpl. rewrite <- !app_assoc, drop_app_length.
    rewrite !count_app, (count_none is_ToCsv no_sink), Hcsv;
      [done|by intros []|done].
  - rewrite E0. unfold since. simpl. rewrite <- !app_assoc, drop_app_length.
    rewrite !count_app, (count_none is_Post no_sink), (Hpost eq_refl);
      [done|by intros []|done].
Qed.

(** X12.  The sinks run in order and nothing is undone: when the file was
    written and the chat alert then fails, the exception leaves [main] and
    the file still holds the table of the records. *)
Theorem csv_is_kept_when_alert_fails s props s1 e :
  scrape_properties W target_url s = (Ok props, s1) ->
  props <> [] ->
  to_csv_outcome W "properties.csv" = None ->
  fst (send_telegram_alert W props s1) = Raise e ->
  fst (main W s) = Raise e
  /\ files (snd (main W s)) !! "properties.csv" = Some (DataFrame props)
  /\ count is_ToCsv (since s (snd (main W s))) = 1.
Proof.
  intros Es Hne Hw Halert. unfold main, try_except, bind. rewrite Es.
  destruct (scrape_properties_calls W target_url s) as (att & E0 & _ & Hatt).
  destruct (interleave_counts _ _ Hatt) as (_ & _ & _ & Hns).
  rewrite Es in E0. simpl in E0.
  destruct props as [|p props]; [done|].
  rewrite (save_to_csv_ok W _ _ s1 Hw).
  match goal with
  | |- context [send_telegram_alert W ?d ?s2] =>
      pose proof (send_telegram_alert_result d s2 s1) as Hres;
      rewrite Halert in Hres;
      destruct (send_telegram_alert_state d s2) as (evs & Est & Hcsv & _);
      destruct (send_telegram_alert W d s2) as [r s3]
  end.
  simpl in Hres, Est. subst r s3. simpl. split_and!.
  - done.
  - apply lookup_insert_eq.
  - rewrite E0. unfold since. simpl. rewrite <- !app_assoc, drop_app_length.
    rewrite !count_app, (count_none is_ToCsv no_sink), Hcsv;
      [done|by intros []|done].
Qed.

End RunProperties.

Section ExtractionProperties.
Context {Tag : Type} `{Bs4 Tag}.
Variable W : World.

Lemma records_cons_Raise url (n : Tag) l e :
  listing_record url n = Raise e -> records url (n :: l) = records url l.
Proof. intros E. unfold records. simpl. by rewrite E. Qed.

Lemma warnings_cons_Ok url (n : Tag) l r :
  listing_record url n = Ok r -> warnings url (n :: l) = warnings url l.
Proof. intros E. unfold warnings. simpl. by rewrite E. Qed.

Lemma warnings_cons_Raise url (n : Tag) l e :
  listing_record url n = Raise e ->
  warnings url (n :: l)
  = Log WARNING [Lit "Error processing listing: "; StrOf e] :: warnings url l.
Proof. intros E. unfold warnings. simpl. by rewrite E. Qed.


(** X15.  [scrape_properties] has no effect on the files and calls no sink,
    whether it returns or raises. *)
Theorem scrape_leaves_files_and_sinks_alone url s :
  files (snd (scrape_properties W url s)) = files s
  /\ count is_ToCsv (since s (snd (scrape_properties W url s))) = 0
  /\ count is_Post (since s (snd (scrape_properties W url s))) = 0
  /\ count is_SendMail (since s (snd (scrape_properties W url s))) = 0.
Proof.
  destruct (scrape_properties_calls W url s) as (att & -> & _ & Hatt).
  destruct (interleave_counts _ _ Hatt) as (_ & _ & _ & Hns).
  rewrite since_emit.
  split_and!; [done|..]; apply (count_none _ no_sink); try done; by intros [].
Qed.

(** X16.  The loop accounts for every listing: each node gives either one
    record or one warning, so the records and the warnings together are as
    many as the nodes, and the loop logs nothing else. *)
Theorem every_listing_gives_record_or_warning url (listings : list Tag) s :
  exists props s',
    for_listings url listings [] s = (Ok props, s')
    /\ length props + length (since s s') = length listings
    /\ Forall (fun ev =>
                 exists e,
                   ev = Log WARNING [Lit "Error processing listing: "; StrOf e])
         (since s s').
Proof.
  rewrite for_listings_spec. do 2 eexists. split; [reflexivity|].
  rewrite since_emit. cbn [app]. clear s.
  induction listings as [|n l (IHlen & IHlog)]; [by split|].
  destruct (listing_record url n) as [r|e] eqn:E.
  - rewrite (records_cons_Ok url n l r E), (warnings_cons_Ok url n l r E).
    cbn [length]. split; [lia|done].
  - rewrite (records_cons_Raise url n l e E), (warnings_cons_Raise url n l e E).
    cbn [length]. split; [lia|]. constructor; [by exists e|done].
Qed.

(** X17.  The Link of a record is decided by the first anchor that has an
    [href]: [None] when there is no such anchor; the [href] itself when it
    starts with ["http"]; and otherwise the page URL followed by the
    [href], with nothing in between. *)
Theorem link_is_None_http_or_prefixed url (listing : Tag) r :
  listing_record url listing = Ok r ->
  (find_attr listing "a" "href" = Ok None /\ get r "Link" = Some VNone)
  \/ exists a href,
       find_attr listing "a" "href" = Ok (Some a)
       /\ getitem a "href" = Ok (AttrStr href)
       /\ ((startswith href "http" = true
            /\ get r "Link" = Some (VStr href))
           \/ (startswith href "http" = false
               /\ get r "Link" = Some (VStr (url +:+ href)))).
Proof.
  intros Hr. destruct (listing_record_link url listing r Hr) as (v & E & ->).
  unfold link_of, rbind in E.
  destruct (find_attr listing "a" "href") as [[a|]|]; [| |done].
  2: { left. split; [done|congruence]. }
  right. exists a.
  destruct (getitem a "href") as [[href|]|]; [|done..].
  exists href. split; [done|]. split; [done|].
  destruct (startswith href "http"); simpl in E; injection E as <-;
    [left|right]; done.
Qed.

(** X18.  Title, Price, Location and Bedrooms are always strings: of the
    five fields only Link can be [None]. *)
Theorem text_fields_are_strings url (listing : Tag) r k :
  listing_record url listing = Ok r ->
  k ∈ ["Title"; "Price"; "Location"; "Bedrooms"] ->
  exists v, get r k = Some (VStr v).
Proof.
  unfold listing_record, rbind. intros E Hk.
  repeat match type of E with
         | match ?x with _ => _ end = _ => destruct x; [|discriminate]
         end.
  injection E as <-.
  repeat (apply elem_of_cons in Hk as [->|Hk]; [by eexists|]).
  by apply elem_of_nil in Hk.
Qed.

(** X19.  What [scrape_properties] returns can always be formatted: neither
    the chat message nor the rows of the mail raise [KeyError] on it. *)
Theorem scraped_records_always_format url s props s' :
  scrape_properties W url s = (Ok props, s') ->
  (exists message, alert_message props = Ok message)
  /\ (forall html, exists html', email_rows (take 10 props) html = Ok html').
Proof.
  intros Hkeys%scrape_properties_Ok_keys.
  assert (Forall (fun prop => Forall (fun k => is_Some (get prop k)) record_keys)
            props) as Hall.
  { eapply Forall_impl; [exact Hkeys|]. apply record_keys_get. }
  split.
  - unfold alert_message. destruct props as [|p props]; [by eexists|].
    apply alert_entries_complete. by apply Forall_take.
  - intros html. apply email_rows_complete. by apply Forall_take.
Qed.
End ExtractionProperties.

(** ** The further properties on the samples *)

Ltac complete_records :=
  repeat first
    [ apply Forall_nil_2
    | apply Forall_cons_2; [by eexists|]
    | apply Forall_cons_2 ].

(** X3 on a list whose second record has a title only. *)
Lemma alert_missing_key_raises_before_post_witness :
  exists k',
    k' ∈ record_keys
    /\ send_telegram_alert online incomplete start = (Raise (KeyError k'), start).
Proof.
  apply (alert_missing_key_raises_before_post online incomplete start
           [("Title", VStr "Flat")] "Price").
  - unfold incomplete. simpl. apply elem_of_cons. right.
    apply elem_of_cons. by left.
  - unfold record_keys. apply elem_of_cons. right. apply elem_of_cons. by left.
  - reflexivity.
Defined.

(** X4 on the same list. *)
Lemma email_missing_key_is_logged_witness :
  exists k',
    k' ∈ record_keys
    /\ send_email online incomplete start
       = (Raise (KeyError k'),
          emit [Log ERROR [Lit "Failed to send email: ";
                           StrOf (KeyError k')]] start).
Proof.
  apply (email_missing_key_is_logged online incomplete start
           [("Title", VStr "Flat")] "Price").
  - unfold incomplete. simpl. apply elem_of_cons. right.
    apply elem_of_cons. by left.
  - unfold record_keys. apply elem_of_cons. right. apply elem_of_cons. by left.
  - reflexivity.
Defined.

(** X5 when the chat server cannot be reached. *)
Lemma failed_alert_is_logged_witness :
  (alert_message [record_full] = Raise refused
   /\ snd (send_telegram_alert chat_down [record_full] start) = start)
  \/ (exists url json,
         snd (send_telegram_alert chat_down [record_full] start)
         = emit [Post url json;
                 Log ERROR [Lit "Failed to send Telegram alert: ";
                            StrOf refused]] start).
Proof.
  apply (failed_alert_is_logged chat_down [record_full] start refused).
  reflexivity.
Defined.



(** X8 on the empty list, and on one record when the login is refused. *)
Lemma email_is_always_attempted_witness :
  (exists html,
      email_rows (take 10 []) email_table_head = Ok html
      /\ count is_SmtpConnect (since start (snd (send_email online [] start)))
         = 1
      /\ count is_SendMail (since start (snd (send_email online [] start)))
         <= 1
      /\ (count is_SendMail (since start (snd (send_email online [] start)))
          = 1
          <-> smtp_outcome online (email_message online html) Connecting = None
              /\ smtp_outcome online (email_message online html) LoggingIn
                 = None))
  /\ count is_SendMail
       (since start (snd (send_email mail_refused [record_full] start))) = 0.
Proof.
  split.
  - apply (email_is_always_attempted online [] start). apply Forall_nil_2.
  - destruct (email_is_always_attempted mail_refused [record_full] start)
      as (html & _ & _ & Hle & Hiff); [simpl; complete_records|].
    destruct (count is_SendMail
                (since start
                   (snd (send_email mail_refused [record_full] start))))
      as [|[|n]]; [reflexivity| |lia].
    destruct (proj1 Hiff eq_refl) as [_ Hlogin]. discriminate Hlogin.
Defined.

(** X9 when no request is served. *)
Lemma scrape_raises_only_RetryError_witness :
  exists e0,
    RetryError refused = RetryError e0
    /\ count is_Get
         (since start (snd (scrape_properties down target_url start))) = 3
    /\ count is_Sleep
         (since start (snd (scrape_properties down target_url start))) = 2.
Proof.
  apply (scrape_raises_only_RetryError down target_url start
           (RetryError refused)
           (snd (scrape_properties down target_url start))).
  reflexivity.
Defined.

(** X10 when no request is served. *)
Lemma main_logs_what_it_raises_witness :
  last (calls (snd (main down start)))
  = Some (Log ERROR [Lit "Script failed: "; StrOf (RetryError refused)]).
Proof. apply (main_logs_what_it_raises down start). reflexivity. Defined.

(** X11 on the sample page. *)
Lemma main_success_means_sinks_done_witness :
  exists props s1,
    scrape_properties online target_url start = (Ok props, s1)
    /\ (props = []
        \/ (to_csv_outcome online "properties.csv" = None
            /\ files (snd (main online start)) !! "properties.csv"
               = Some (DataFrame props)
            /\ header (DataFrame props) = record_keys
            /\ count is_ToCsv (since start (snd (main online start))) = 1
            /\ count is_Post (since start (snd (main online start))) = 1)).
Proof. apply (main_success_means_sinks_done online start). reflexivity. Defined.

(** X12 when the chat server cannot be reached. *)
Lemma csv_is_kept_when_alert_fails_witness :
  fst (main chat_down start) = Raise refused
  /\ files (snd (main chat_down start)) !! "properties.csv"
     = Some (DataFrame [record_full; record_bare; record_httpfoo])
  /\ count is_ToCsv (since start (snd (main chat_down start))) = 1.
Proof.
  apply (csv_is_kept_when_alert_fails chat_down start
           [record_full; record_bare; record_httpfoo]
           (snd (scrape_properties chat_down target_url start)) refused);
    [reflexivity|discriminate|reflexivity|reflexivity].
Defined.



(** X17 and X18 on the complete listing. *)
Lemma link_is_None_http_or_prefixed_witness :
  (find_attr listing_full "a" "href" = Ok None
   /\ get record_full "Link" = Some VNone)
  \/ exists a href,
       find_attr listing_full "a" "href" = Ok (Some a)
       /\ getitem a "href" = Ok (AttrStr href)
       /\ ((startswith href "http" = true
            /\ get record_full "Link" = Some (VStr href))
           \/ (startswith href "http" = false
               /\ get record_full "Link"
                  = Some (VStr (target_url +:+ href)))).
Proof.
  apply (link_is_None_http_or_prefixed target_url listing_full record_full).
  reflexivity.
Defined.

Lemma text_fields_are_strings_witness :
  exists v, get record_full "Bedrooms" = Some (VStr v).
Proof.
  apply (text_fields_are_strings target_url listing_full record_full
           "Bedrooms"); [reflexivity|].
  do 3 (apply elem_of_cons; right). apply elem_of_cons. by left.
Defined.

(** X19 on the sample page. *)
Lemma scraped_records_always_format_witness :
  (exists message,
      alert_message [record_full; record_bare; record_httpfoo] = Ok message)
  /\ (forall html,
        exists html',
          email_rows (take 10 [record_full; record_bare; record_httpfoo]) html
          = Ok html').
Proof.
  apply (scraped_records_always_format online target_url start
           [record_full; record_bare; record_httpfoo]
           (snd (scrape_properties online target_url start))).
  reflexivity.
Defined.
